(** * Portfolio API (Google Apps Script): the reader, the image collector
      and the request router of [src/Code.js], embedded and verified.

    [Code.js] holds two revisions of the script; the later one (lines 181
    to 430), which has the [images] action, is the one embedded here, and
    the line numbers below are those of the file.

    The script is a thin layer over the Apps Script services.  What it
    computes itself is embedded as executable definitions:

    - the JavaScript values a spreadsheet cell (or a missing array slot)
      can hold, with truthiness, [String(...)], [trim], [toLowerCase] and
      [split];
    - [formatDate], [parseTags], [parseBoolean], the row shaping of
      [getPortfolioItems], the file loop of [getDriveImages],
      [createErrorResponse] and [doGet], the last three in a small monad
      of exceptions and log lines;
    - the helpers and the row shaping once more with every method call
      looked up at run time (module [Dyn]), where a call on a value
      without the method throws.

    What the script only calls is an interface: the class [Runtime] for
    the pure services (how a number and a date render, and
    [Utilities.formatDate], [Utilities.base64Encode], [JSON.stringify]),
    and the record [World] for the spreadsheet, the folder and the script
    properties.  The theorems hold for every runtime and every world; the
    module [Reference] gives one runtime on which everything computes. *)

From Stdlib Require Import Ascii String.
From stdpp Require Import base option list strings gmap pretty.

Open Scope string_scope.

(** ** JavaScript strings

    A string is held as the bytes of its UTF-8 form, one [ascii] per
    byte, which is also how the string literals of this file are read.

    [trim] removes what [String.prototype.trim] removes, the white space
    and line terminators of ECMAScript, each in its UTF-8 form: U+0009 to
    U+000D and U+0020 (one byte), U+00A0 (two bytes), and U+1680, U+2000
    to U+200A, U+2028, U+2029, U+202F, U+205F, U+3000 and U+FEFF (three
    bytes).

    [toLowerCase] changes the letters A to Z.  The script lower-cases a
    string only to compare it, once trimmed, with the words ["true"],
    ["1"] and ["yes"]; no character outside ASCII has a lower-case form
    with a letter of these words or with white space in it, so the
    comparison comes out the same as with the full lower-casing. *)
Module JSString.

(** White space of one byte: U+0009 to U+000D and U+0020 *)
Definition isWhiteSpace (c : ascii) : bool :=
  let n := nat_of_ascii c in
  (Nat.leb 9 n && Nat.leb n 13) || Nat.eqb n 32.

(** White space of two bytes: U+00A0 is C2 A0 *)
Definition isWhiteSpace2 (c1 c2 : ascii) : bool :=
  Nat.eqb (nat_of_ascii c1) 194 && Nat.eqb (nat_of_ascii c2) 160.

(** White space of three bytes: U+1680 is E1 9A 80; U+2000 to U+200A,
    U+2028, U+2029 and U+202F are E2 80 followed by 80 to 8A, A8, A9 and
    AF; U+205F is E2 81 9F; U+3000 is E3 80 80; U+FEFF is EF BB BF. *)
Definition isWhiteSpace3 (c1 c2 c3 : ascii) : bool :=
  let n1 := nat_of_ascii c1 in
  let n2 := nat_of_ascii c2 in
  let n3 := nat_of_ascii c3 in
  (Nat.eqb n1 225 && (Nat.eqb n2 154 && Nat.eqb n3 128))
  || (Nat.eqb n1 226
      && (Nat.eqb n2 128
          && ((Nat.leb 128 n3 && Nat.leb n3 138)
              || Nat.eqb n3 168 || Nat.eqb n3 169 || Nat.eqb n3 175)))
  || (Nat.eqb n1 226 && (Nat.eqb n2 129 && Nat.eqb n3 159))
  || (Nat.eqb n1 227 && (Nat.eqb n2 128 && Nat.eqb n3 128))
  || (Nat.eqb n1 239 && (Nat.eqb n2 187 && Nat.eqb n3 191)).

Definition lowerChar (c : ascii) : ascii :=
  let n := nat_of_ascii c in
  if Nat.leb 65 n && Nat.leb n 90 then ascii_of_nat (n + 32) else c.

Fixpoint toLowerCase (s : string) : string :=
  match s with
  | EmptyString => EmptyString
  | String c r => String (lowerChar c) (toLowerCase r)
  end.

(** Drops from the front of [s] every run of one, two or three bytes that
    [one], [two] or [three] accepts, until none is left in front. *)
Fixpoint dropSpaces (one : ascii -> bool) (two : ascii -> ascii -> bool)
    (three : ascii -> ascii -> ascii -> bool) (s : string) : string :=
  match s with
  | EmptyString => EmptyString
  | String c1 r1 =>
      if one c1 then dropSpaces one two three r1
      else
        match r1 with
        | EmptyString => s
        | String c2 r2 =>
            if two c1 c2 then dropSpaces one two three r2
            else
              match r2 with
              | EmptyString => s
              | String c3 r3 =>
                  if three c1 c2 c3 then dropSpaces one two three r3 else s
              end
        end
  end.

(** Whether [s] has such a run in front. *)
Definition startsWithSpace (one : ascii -> bool) (two : ascii -> ascii -> bool)
    (three : ascii -> ascii -> ascii -> bool) (s : string) : bool :=
  match s with
  | EmptyString => false
  | String c1 r1 =>
      if one c1 then true
      else
        match r1 with
        | EmptyString => false
        | String c2 r2 =>
            if two c1 c2 then true
            else
              match r2 with
              | EmptyString => false
              | String c3 _ => three c1 c2 c3
              end
        end
  end.

Fixpoint reverse (s : string) : string :=
  match s with
  | EmptyString => EmptyString
  | String c r => reverse r +:+ String c EmptyString
  end.

Definition trimStart (s : string) : string :=
  dropSpaces isWhiteSpace isWhiteSpace2 isWhiteSpace3 s.

(** The end of [s] is the front of its reverse, where the bytes of a
    white space come last byte first. *)
Definition trimEnd (s : string) : string :=
  reverse
    (dropSpaces isWhiteSpace
       (fun c2 c1 => isWhiteSpace2 c1 c2)
       (fun c3 c2 c1 => isWhiteSpace3 c1 c2 c3)
       (reverse s)).

Definition trim (s : string) : string := trimEnd (trimStart s).

(** [s.split(sep)] for a one-character separator: always at least one
    piece, and an empty piece between two adjacent separators. *)
Fixpoint split (sep : ascii) (s : string) : list string :=
  match s with
  | EmptyString => [EmptyString]
  | String c r =>
      if Ascii.eqb c sep then EmptyString :: split sep r
      else match split sep r with
           | piece :: pieces => String c piece :: pieces
           | [] => [String c EmptyString]
           end
  end.

(** [s.length > 0] *)
Definition nonEmpty (s : string) : bool :=
  match s with EmptyString => false | String _ _ => true end.

Definition dquote : string := String (ascii_of_nat 34) EmptyString.

(** [s.includes(c)] for one character *)
Fixpoint hasChar (c : ascii) (s : string) : bool :=
  match s with
  | EmptyString => false
  | String d r => Ascii.eqb d c || hasChar c r
  end.

(** [pieces.join(sep)] for a one-character separator *)
Definition join (sep : ascii) (pieces : list string) : string :=
  String.concat (String sep EmptyString) pieces.

End JSString.

(** ** JavaScript arrays, with the method names the script uses *)
Module JSArray.

Definition filter {A} (f : A -> bool) (l : list A) : list A := List.filter f l.

Definition map {A B} (f : A -> B) (l : list A) : list B := List.map f l.

(** [l.map((x, index) => f x index)] *)
Definition mapi {A B} (f : A -> nat -> B) (l : list A) : list B :=
  imap (fun index x => f x index) l.

(** [l.includes(x)] on strings *)
Definition includes (l : list string) (x : string) : bool :=
  existsb (String.eqb x) l.

(** [l.push(x)] *)
Definition push {A} (l : list A) (x : A) : list A := (l ++ [x])%list.

End JSArray.


(** ** The records the script builds *)

(** [{label, url}] *)
Record Link := { label : string; url : string }.

(** [ApiResponseItem] of the header comment *)
Record ApiResponseItem := {
  id : nat;
  date : string;
  title : string;
  description : string;
  imageUrl : string;
  tags : list string;
  links : list Link;
  isCommision : bool }.

(** [ImageData] of the header comment *)
Record ImageData := { name : string; mimeType : string; data : string }.

(** The object literal of [createErrorResponse] *)
Record ErrorBody := { error : bool; message : string; statusCode : nat }.

(** What [doGet] and [createErrorResponse] hand to [JSON.stringify]. *)
Inductive Payload :=
| OfItems (items : list ApiResponseItem)
| OfImages (images : list ImageData)
| OfError (body : ErrorBody).

(** [ContentService.MimeType] *)
Inductive MimeType := TEXT | JSON.

(** A [TextOutput]: [createTextOutput()] starts empty and as plain text;
    [setMimeType] and [setContent] overwrite one field each. *)
Record TextOutput := { outMimeType : MimeType; content : string }.

Definition createTextOutput : TextOutput :=
  {| outMimeType := TEXT; content := EmptyString |}.

Definition setMimeType (output : TextOutput) (m : MimeType) : TextOutput :=
  {| outMimeType := m; content := content output |}.

Definition setContent (output : TextOutput) (c : string) : TextOutput :=
  {| outMimeType := outMimeType output; content := c |}.

(** ** Exceptions

    An [Error] object with its [name] and [message]; [toString] is
    [Error.prototype.toString].  [new Error(m)] has the name ["Error"]. *)
Record Exn := { exnName : string; exnMessage : string }.

Definition newError (m : string) : Exn := {| exnName := "Error"; exnMessage := m |}.

Definition toString (e : Exn) : string :=
  match exnName e, exnMessage e with
  | EmptyString, m => m
  | n, EmptyString => n
  | n, m => n +:+ ": " +:+ m
  end.

(** A computation of the script either returns or throws, and may write
    to the [Logger]; [GAS A] threads the log lines written so far. *)
Inductive Completion (A : Type) :=
| Returned (a : A)
| Thrown (e : Exn).
Arguments Returned {A} a.
Arguments Thrown {A} e.

Definition GAS (A : Type) : Type := list string -> Completion A * list string.

Definition ret {A} (a : A) : GAS A := fun log => (Returned a, log).

Definition throw {A} (e : Exn) : GAS A := fun log => (Thrown e, log).

Definition bind {A B} (m : GAS A) (k : A -> GAS B) : GAS B :=
  fun log =>
    match m log with
    | (Returned a, log') => k a log'
    | (Thrown e, log') => (Thrown e, log')
    end.

(** [try { body } catch (error) { handler error }] *)
Definition try_catch {A} (body : GAS A) (handler : Exn -> GAS A) : GAS A :=
  fun log =>
    match body log with
    | (Returned a, log') => (Returned a, log')
    | (Thrown e, log') => handler e log'
    end.

(** A service call that returns or throws without logging. *)
Definition call {A} (c : Completion A) : GAS A := fun log => (c, log).

(** [Logger.log(line)] *)
Definition Logger_log (line : string) : GAS unit :=
  fun log => (Returned tt, JSArray.push log line).

#[global] Instance GAS_ret : MRet GAS := @ret.
#[global] Instance GAS_bind : MBind GAS := fun A B k m => bind m k.

(** ** The services the script calls but does not define *)
Class Runtime : Type := {
  (** numbers: truthiness ([false] on 0, -0 and NaN) and [String(n)] *)
  JSNumber : Type;
  Number_truthy : JSNumber -> bool;
  Number_toString : JSNumber -> string;
  (** [Date] objects: [String(d)] and [Utilities.formatDate(d, tz, fmt)] *)
  JSDate : Type;
  Date_toString : JSDate -> string;
  Utilities_formatDate : JSDate -> string -> string -> string;
  (** [Utilities.base64Encode(bytes)] *)
  Utilities_base64Encode : list Byte.byte -> string;
  (** [JSON.stringify(payload)] *)
  JSON_stringify : Payload -> string }.

(** Neither a number nor a date renders as the empty string. *)
Class RuntimeLaws (R : Runtime) : Prop := {
  Number_toString_nonempty : forall n : JSNumber, Number_toString n <> EmptyString;
  Date_toString_nonempty : forall d : JSDate, Date_toString d <> EmptyString }.

Section Script.
Context {R : Runtime}.

(** ** JavaScript values

    What a cell of [getValues()] holds (a number, a boolean, a [Date] or
    a string, the empty string for an empty cell), and [undefined] and
    [null], which an index outside the row or an unset property give. *)
Inductive JSValue :=
| VUndefined
| VNull
| VBoolean (b : bool)
| VNumber (n : JSNumber)
| VString (s : string)
| VDate (d : JSDate).

(** [!!value] *)
Definition truthy (value : JSValue) : bool :=
  match value with
  | VUndefined | VNull => false
  | VBoolean b => b
  | VNumber n => Number_truthy n
  | VString s => JSString.nonEmpty s
  | VDate _ => true
  end.

(** [String(value)] *)
Definition ToString (value : JSValue) : string :=
  match value with
  | VUndefined => "undefined"
  | VNull => "null"
  | VBoolean true => "true"
  | VBoolean false => "false"
  | VNumber n => Number_toString n
  | VString s => s
  | VDate d => Date_toString d
  end.

(** [value || ''] *)
Definition orEmpty (value : JSValue) : JSValue :=
  if truthy value then value else VString EmptyString.

(** [value !== undefined] and [value !== ''] *)
Definition isUndefined (value : JSValue) : bool :=
  match value with VUndefined => true | _ => false end.

Definition isEmptyString (value : JSValue) : bool :=
  match value with VString EmptyString => true | _ => false end.

(** [row[i]], where [i] is the result of a property lookup: [undefined]
    outside the row and for a missing property. *)
Definition at_ (row : list JSValue) (i : option nat) : JSValue :=
  match i with
  | Some n => default VUndefined (row !! n)
  | None => VUndefined
  end.

(** ** The parsing helpers *)

(** [formatDate] (lines 386-392) *)
Definition formatDate (dateValue : JSValue) : string :=
  if negb (truthy dateValue) then EmptyString
  else match dateValue with
       | VDate d => Utilities_formatDate d "Asia/Tokyo" "yyyy-MM-dd"
       | _ => ToString dateValue
       end.

(** [parseTags] (lines 398-405) *)
Definition parseTags (tagsString : JSValue) : list string :=
  if negb (truthy tagsString) then []
  else
    JSArray.filter (fun tag => JSString.nonEmpty tag)
      (JSArray.map (fun tag => JSString.trim tag)
         (JSString.split "," (ToString tagsString))).

(** [parseBoolean] (lines 410-416) *)
Definition parseBoolean (value : JSValue) : bool :=
  match value with
  | VBoolean b => b
  | _ =>
      if negb (truthy value) then false
      else
        let strValue := JSString.trim (JSString.toLowerCase (ToString value)) in
        String.eqb strValue "true" || String.eqb strValue "1" || String.eqb strValue "yes"
  end.

(** ** The world behind the services *)

(** A sheet: its last row with content and its cells, rows and columns
    counted from 1. *)
Record Sheet := { getLastRow : nat; cellAt : nat -> nat -> JSValue }.

(** [sheet.getRange(row, column, numRows, numColumns).getValues()] *)
Definition getValues (sheet : Sheet) (row column numRows numColumns : nat)
  : list (list JSValue) :=
  List.map (fun r => List.map (fun c => cellAt sheet r c) (seq column numColumns))
    (seq row numRows).

(** [getSheetByName] returns [null] for an unknown name. *)
Record Spreadsheet := { getSheetByName : option string -> option Sheet }.

(** A file of a drive folder: [getMimeType()], [getBlob().getBytes()],
    [getId()]. *)
Record DriveFile := {
  getMimeType : string;
  getBytes : list Byte.byte;
  getId : string }.

(** [folder.getFiles()], in the order the iterator yields the files *)
Record Folder := { getFiles : list DriveFile }.

(** The script properties ([null] when unset) and the two services that
    open a spreadsheet and a folder, either of which may throw. *)
Record World := {
  SPREADSHEET_ID : option string;
  SHEET_NAME : option string;
  DRIVE_FOLDER_ID : option string;
  openById : option string -> Completion Spreadsheet;
  getFolderById : string -> Completion Folder }.

(** ** [getPortfolioItems] (lines 270-330) *)

Definition COLUMN_COUNT : nat := 13.

Definition COL : gmap string nat :=
  list_to_map
    [ ("date", 1); ("title", 2); ("description", 3); ("imageUrl", 4);
      ("tags", 5); ("isCommision", 6); ("Amazon", 7); ("DLsite", 8);
      ("公式サイト", 9); ("Youtube", 10); ("ニコニコ", 11);
      ("メロンブックス", 12); ("リンク", 13) ].

Definition LINK_KEYS : list string :=
  [ "Amazon"; "DLsite"; "公式サイト"; "Youtube"; "ニコニコ"; "メロンブックス"; "リンク" ].

(** The callback of [values.filter] (line 312) *)
Definition titlePresent (row : list JSValue) : bool :=
  negb (isUndefined (at_ row (COL !! "title")))
  && negb (isEmptyString (at_ row (COL !! "title"))).

(** The [links] expression (lines 320-325) *)
Definition linksOf (row : list JSValue) : list Link :=
  JSArray.filter (fun link => JSString.nonEmpty (url link))
    (JSArray.map
       (fun key => {| label := key; url := ToString (orEmpty (at_ row (COL !! key))) |})
       LINK_KEYS).

(** The callback of [.map] (lines 313-327) *)
Definition itemOf (row : list JSValue) (index : nat) : ApiResponseItem :=
  {| id := index;
     date := formatDate (at_ row (COL !! "date"));
     title := ToString (orEmpty (at_ row (COL !! "title")));
     description := ToString (orEmpty (at_ row (COL !! "description")));
     imageUrl := ToString (orEmpty (at_ row (COL !! "imageUrl")));
     tags := parseTags (at_ row (COL !! "tags"));
     links := linksOf row;
     isCommision := parseBoolean (at_ row (COL !! "isCommision")) |}.

(** The constant [items] (lines 311-327) as a function of [values] *)
Definition items (values : list (list JSValue)) : list ApiResponseItem :=
  JSArray.mapi itemOf (JSArray.filter titlePresent values).

(** The grid [getPortfolioItems] shapes (lines 299-305): nothing when
    [lastRow <= 1], else rows 2 to [lastRow], columns 1 to [COLUMN_COUNT]. *)
Definition dataValues (sheet : Sheet) : list (list JSValue) :=
  let lastRow := getLastRow sheet in
  if Nat.leb lastRow 1 then []
  else getValues sheet 2 1 (lastRow - 1) COLUMN_COUNT.

(** [${property}] inside a template literal *)
Definition interpolate (property : option string) : string :=
  match property with Some s => s | None => "null" end.

Definition getPortfolioItems (w : World) : GAS (list ApiResponseItem) :=
  spreadsheet ← call (openById w (SPREADSHEET_ID w));
  match getSheetByName spreadsheet (SHEET_NAME w) with
  | None =>
      throw (newError ("Sheet " +:+ JSString.dquote +:+ interpolate (SHEET_NAME w)
                       +:+ JSString.dquote +:+ " not found"))
  | Some sheet =>
      let lastRow := getLastRow sheet in
      if Nat.leb lastRow 1 then mret []
      else
        let values := getValues sheet 2 1 (lastRow - 1) COLUMN_COUNT in
        mret (items values)
  end.

(** ** [getDriveImages] (lines 343-380) *)

Definition imageMimeTypes : list string :=
  [ "image/png"; "image/jpeg"; "image/gif"; "image/webp"; "image/svg+xml" ].

(** The [while (files.hasNext())] loop (lines 361-377): [files] is what
    the iterator has left, [images] the array built so far. *)
Fixpoint while_hasNext (files : list DriveFile) (images : list ImageData)
  : list ImageData :=
  match files with
  | [] => images
  | file :: files' =>
      let mimeType := getMimeType file in
      if JSArray.includes imageMimeTypes mimeType then
        let base64Data := Utilities_base64Encode (getBytes file) in
        let fileId := getId file in
        while_hasNext files'
          (JSArray.push images {| name := fileId; mimeType := mimeType; data := base64Data |})
      else while_hasNext files' images
  end.

(** The object the loop pushes for an image file (lines 371-375) *)
Definition imageOf (file : DriveFile) : ImageData :=
  {| name := getId file;
     mimeType := getMimeType file;
     data := Utilities_base64Encode (getBytes file) |}.

Definition getDriveImages (w : World) : GAS (list ImageData) :=
  match DRIVE_FOLDER_ID w with
  | None | Some EmptyString =>
      throw (newError "DRIVE_FOLDER_ID is not set in script properties")
  | Some folderId =>
      folder ← call (getFolderById w folderId);
      mret (while_hasNext (getFiles folder) [])
  end.

(** ** [createErrorResponse] (lines 421-430) *)

(** [statusCode || 500]; [None] is an omitted argument *)
Definition orDefault (statusCode : option nat) (d : nat) : nat :=
  match statusCode with
  | None | Some 0 => d
  | Some c => c
  end.

Definition createErrorResponse (message : string) (statusCode : option nat)
  : TextOutput :=
  let output := createTextOutput in
  let output := setMimeType output JSON in
  setContent output
    (JSON_stringify
       (OfError {| error := true; message := message;
                   statusCode := orDefault statusCode 500 |})).

(** ** [doGet] (lines 236-261) *)

(** The event object: [e.parameter] maps each query parameter to its
    value. *)
Record Event := { parameter : option (gmap string string) }.

(** [(e && e.parameter && e.parameter.action) || 'items'] *)
Definition actionOf (e : option Event) : string :=
  match e with
  | Some ev =>
      match parameter ev with
      | Some p =>
          match p !! "action" with
          | Some a => if JSString.nonEmpty a then a else "items"
          | None => "items"
          end
      | None => "items"
      end
  | None => "items"
  end.

(** The [switch (action)] (lines 244-252) *)
Definition dispatch (w : World) (action : string) : GAS Payload :=
  if String.eqb action "images" then
    images ← getDriveImages w; mret (OfImages images)
  else if String.eqb action "items" then
    portfolio ← getPortfolioItems w; mret (OfItems portfolio)
  else
    portfolio ← getPortfolioItems w; mret (OfItems portfolio).

Definition doGet (w : World) (e : option Event) : GAS TextOutput :=
  try_catch
    (let output := createTextOutput in
     let output := setMimeType output JSON in
     let action := actionOf e in
     result ← dispatch w action;
     mret (setContent output (JSON_stringify result)))
    (fun error =>
       Logger_log ("Error in doGet: " +:+ toString error);;
       mret (createErrorResponse ("Internal server error: " +:+ toString error) (Some 500))).

End Script.

(** ** A reference runtime

    A small concrete [Runtime] on which every definition above runs:
    numbers are integers, dates are calendar days of the Asia/Tokyo zone,
    [base64Encode] is RFC 4648 and [JSON.stringify] writes compact JSON.
    It is used to evaluate the script on concrete sheets and folders. *)
Module Reference.

Record CivilDate := { year : nat; month : nat; day : nat }.

Definition pad (width : nat) (n : nat) : string :=
  let s := pretty n in
  String.concat EmptyString (replicate (width - String.length s) "0") +:+ s.

Definition formatCivil (d : CivilDate) : string :=
  pad 4 (year d) +:+ "-" +:+ pad 2 (month d) +:+ "-" +:+ pad 2 (day d).

Definition alphabet : string :=
  "ABCDEFGHIJKLMNOPQRSTUVWXYZabcdefghijklmnopqrstuvwxyz0123456789+/".

Definition sextet (n : N) : string :=
  match String.get (N.to_nat (n mod 64)) alphabet with
  | Some c => String c EmptyString
  | None => EmptyString
  end.

Fixpoint base64 (bytes : list N) : string :=
  match bytes with
  | [] => EmptyString
  | [a] =>
      let n := (a * 65536)%N in
      sextet (n / 262144) +:+ sextet (n / 4096) +:+ "=="
  | [a; b] =>
      let n := (a * 65536 + b * 256)%N in
      sextet (n / 262144) +:+ sextet (n / 4096) +:+ sextet (n / 64) +:+ "="
  | a :: b :: c :: rest =>
      let n := (a * 65536 + b * 256 + c)%N in
      sextet (n / 262144) +:+ sextet (n / 4096) +:+ sextet (n / 64) +:+ sextet n
      +:+ base64 rest
  end.

Definition hexDigit (n : nat) : string :=
  match String.get (n mod 16) "0123456789abcdef" with
  | Some c => String c EmptyString
  | None => EmptyString
  end.

Definition backslash : string := String (ascii_of_nat 92) EmptyString.

Definition escapeChar (c : ascii) : string :=
  let n := nat_of_ascii c in
  if Nat.eqb n 34 then backslash +:+ JSString.dquote
  else if Nat.eqb n 92 then backslash +:+ backslash
  else if Nat.eqb n 8 then backslash +:+ "b"
  else if Nat.eqb n 9 then backslash +:+ "t"
  else if Nat.eqb n 10 then backslash +:+ "n"
  else if Nat.eqb n 12 then backslash +:+ "f"
  else if Nat.eqb n 13 then backslash +:+ "r"
  else if Nat.ltb n 32 then backslash +:+ "u00" +:+ hexDigit (n / 16) +:+ hexDigit n
  else String c EmptyString.

Fixpoint escape (s : string) : string :=
  match s with
  | EmptyString => EmptyString
  | String c r => escapeChar c +:+ escape r
  end.

Definition quoted (s : string) : string :=
  JSString.dquote +:+ escape s +:+ JSString.dquote.

Definition array (elements : list string) : string :=
  "[" +:+ String.concat "," elements +:+ "]".

Definition object (fields : list (string * string)) : string :=
  "{" +:+ String.concat "," (List.map (fun f => quoted (fst f) +:+ ":" +:+ snd f) fields) +:+ "}".

Definition boolean (b : bool) : string := if b then "true" else "false".

Definition linkJSON (l : Link) : string :=
  object [("label", quoted (label l)); ("url", quoted (url l))].

Definition itemJSON (i : ApiResponseItem) : string :=
  object
    [ ("id", pretty (id i)); ("date", quoted (date i)); ("title", quoted (title i));
      ("description", quoted (description i)); ("imageUrl", quoted (imageUrl i));
      ("tags", array (List.map quoted (tags i)));
      ("links", array (List.map linkJSON (links i)));
      ("isCommision", boolean (isCommision i)) ].

Definition imageJSON (i : ImageData) : string :=
  object [("name", quoted (name i)); ("mimeType", quoted (mimeType i));
          ("data", quoted (data i))].

Definition stringify (p : Payload) : string :=
  match p with
  | OfItems l => array (List.map itemJSON l)
  | OfImages l => array (List.map imageJSON l)
  | OfError b =>
      object [("error", boolean (error b)); ("message", quoted (message b));
              ("statusCode", pretty (statusCode b))]
  end.

#[global] Instance runtime : Runtime := {|
  JSNumber := Z;
  Number_truthy := fun z => negb (Z.eqb z 0);
  Number_toString := fun z => pretty z;
  JSDate := CivilDate;
  Date_toString := fun d => formatCivil d +:+ "T00:00:00.000+09:00";
  Utilities_formatDate := fun d _ _ => formatCivil d;
  Utilities_base64Encode := fun bytes => base64 (List.map Byte.to_N bytes);
  JSON_stringify := stringify |}.

End Reference.

(** ** Sample sheets and folders on the reference runtime *)
Module Samples.
Import Reference.

(** A sheet from its rows, the header row first; a cell outside the rows
    is empty and reads as the empty string. *)
Definition sheetOfRows (rows : list (list JSValue)) : Sheet :=
  {| getLastRow := length rows;
     cellAt := fun r c =>
       default (VString EmptyString) (rows !! (r - 1) ≫= fun row => row !! (c - 1)) |}.

(** The heading row, which the reader never looks at. *)
Definition heading : list JSValue :=
  List.map VString ["A"; "B"; "C"; "D"; "E"; "F"; "G"; "H"; "I"; "J"; "K"; "L"; "M"].

Definition empty : JSValue := VString EmptyString.

(** A cell holding the integer [z] *)
Definition number (z : Z) : JSValue := VNumber (z : @JSNumber runtime).

(** Rows of thirteen cells, as [getValues] returns them.  The reader
    takes the cell at index 1 for the date, 2 for the title, 3 for the
    description, 4 for the image, 5 for the tags, 6 for the commission
    mark and 7 to 12 for the links Amazon to メロンブックス. *)
Definition harbor : list JSValue :=
  [ number 1; VDate {| year := 2024; month := 3; day := 9 |}; VString "Quiet Harbor";
    VString "Cover illustration"; VString "https://example.com/harbor.png";
    VString "illustration, cover"; VBoolean true;
    VString "https://www.amazon.co.jp/dp/B000000000"; empty;
    VString "https://example.com/harbor"; empty; empty; empty ].

Definition blank : list JSValue := replicate 13 empty.

(** A row whose cell at [COL.title] holds the number 0. *)
Definition zeroTitle : list JSValue :=
  [ empty; empty; number 0; empty; empty; empty; empty; empty; empty; empty;
    empty; empty; empty ].

(** A row whose cell at [COL.Amazon] holds the boolean [false]. *)
Definition falseLink : list JSValue :=
  [ empty; empty; VString "Night Train"; empty; empty; empty; empty; VBoolean false;
    VString "https://www.dlsite.com/work/1"; empty; empty; empty; empty ].

(** A row with cells of unexpected types: a date as title, numbers as
    description and tags, a boolean as image. *)
Definition odd : list JSValue :=
  [ empty; VString "spring"; VDate {| year := 2023; month := 12; day := 24 |};
    number 7; VBoolean true; number 12; VString "maybe"; number 5; empty; empty;
    empty; empty; empty ].

Definition portfolio : Sheet := sheetOfRows [heading; harbor; blank; falseLink; odd].

Definition cover : DriveFile :=
  {| getMimeType := "image/png"; getBytes := list_byte_of_string "Man";
     getId := "1AbCdEf" |}.

Definition notes : DriveFile :=
  {| getMimeType := "text/plain"; getBytes := list_byte_of_string "todo";
     getId := "2GhIjKl" |}.

Definition photo : DriveFile :=
  {| getMimeType := "image/jpeg"; getBytes := list_byte_of_string "Ma";
     getId := "3MnOpQr" |}.

Definition pictures : Folder := {| getFiles := [cover; notes; photo] |}.

Definition notFound (what : string) : Exn :=
  {| exnName := "Exception"; exnMessage := what +:+ " not found" |}.

(** A world with one spreadsheet holding the sheet [Portfolio] and one
    folder. *)
Definition world : World :=
  {| SPREADSHEET_ID := Some "sheet-1";
     SHEET_NAME := Some "Portfolio";
     DRIVE_FOLDER_ID := Some "folder-1";
     openById := fun i =>
       if decide (i = Some "sheet-1") then
         Returned {| getSheetByName := fun n =>
                       if decide (n = Some "Portfolio") then Some portfolio else None |}
       else Thrown (notFound "Spreadsheet");
     getFolderById := fun i =>
       if decide (i = "folder-1") then Returned pictures
       else Thrown (notFound "Folder") |}.

(** The same world with the sheet name and the folder id unset. *)
Definition unconfigured : World :=
  {| SPREADSHEET_ID := Some "sheet-1";
     SHEET_NAME := None;
     DRIVE_FOLDER_ID := None;
     openById := openById world;
     getFolderById := getFolderById world |}.

(** [?action=...] and [?id=...] *)
Definition query (key v : string) : option Event :=
  Some {| parameter := Some {[ key := v ]} |}.

End Samples.

(** ** The earlier revisions of the script

    [Code.js] lines 1 to 180 are the revision before the [images] action:
    its [getPortfolioItems] and helpers are those embedded above, and its
    [doGet] looks at no parameter. *)
Module Earlier.

(** [doGet] (lines 44-61) *)
Definition doGet {R : Runtime} (w : World) (e : option Event) : GAS TextOutput :=
  try_catch
    (let output := createTextOutput in
     let output := setMimeType output JSON in
     items ← getPortfolioItems w;
     mret (setContent output (JSON_stringify (OfItems items))))
    (fun error =>
       Logger_log ("Error in doGet: " +:+ toString error);;
       mret (createErrorResponse ("Internal server error: " +:+ toString error) (Some 500))).

End Earlier.

(** [src/unnamed/part_000] is the revision before the date column: twelve
    columns, every index of [COL] one less, and items without [date].
    Its [parseTags], [parseBoolean] and [createErrorResponse] are those
    embedded above.  Its [doGet] is the text of [Earlier.doGet] and
    serializes the items below, which [Payload] does not hold, so it is
    not embedded. *)
Module Part000.

(** [ApiResponseItem] of the header comment (lines 11-22) *)
Record ApiResponseItem := {
  id : nat;
  title : string;
  description : string;
  imageUrl : string;
  tags : list string;
  links : list Link;
  isCommision : bool }.

Definition COLUMN_COUNT : nat := 12.

Definition COL : gmap string nat :=
  list_to_map
    [ ("title", 1); ("description", 2); ("imageUrl", 3); ("tags", 4);
      ("isCommision", 5); ("Amazon", 6); ("DLsite", 7); ("公式サイト", 8);
      ("Youtube", 9); ("ニコニコ", 10); ("メロンブックス", 11); ("リンク", 12) ].

Definition LINK_KEYS : list string :=
  [ "Amazon"; "DLsite"; "公式サイト"; "Youtube"; "ニコニコ"; "メロンブックス"; "リンク" ].

(** The callback of [values.filter] (line 109) *)
Definition titlePresent {R : Runtime} (row : list JSValue) : bool :=
  negb (isUndefined (at_ row (COL !! "title")))
  && negb (isEmptyString (at_ row (COL !! "title"))).

(** The [links] expression (lines 116-121) *)
Definition linksOf {R : Runtime} (row : list JSValue) : list Link :=
  JSArray.filter (fun link => JSString.nonEmpty (url link))
    (JSArray.map
       (fun key => {| label := key; url := ToString (orEmpty (at_ row (COL !! key))) |})
       LINK_KEYS).

(** The callback of [.map] (lines 110-123) *)
Definition itemOf {R : Runtime} (row : list JSValue) (index : nat) : ApiResponseItem :=
  {| id := index;
     title := ToString (orEmpty (at_ row (COL !! "title")));
     description := ToString (orEmpty (at_ row (COL !! "description")));
     imageUrl := ToString (orEmpty (at_ row (COL !! "imageUrl")));
     tags := parseTags (at_ row (COL !! "tags"));
     links := linksOf row;
     isCommision := parseBoolean (at_ row (COL !! "isCommision")) |}.

(** The constant [items] (lines 108-123) as a function of [values] *)
Definition items {R : Runtime} (values : list (list JSValue)) : list ApiResponseItem :=
  JSArray.mapi itemOf (JSArray.filter titlePresent values).

(** [getPortfolioItems] (lines 68-126) *)
Definition getPortfolioItems {R : Runtime} (w : World) : GAS (list ApiResponseItem) :=
  spreadsheet ← call (openById w (SPREADSHEET_ID w));
  match getSheetByName spreadsheet (SHEET_NAME w) with
  | None =>
      throw (newError ("Sheet " +:+ JSString.dquote +:+ interpolate (SHEET_NAME w)
                       +:+ JSString.dquote +:+ " not found"))
  | Some sheet =>
      let lastRow := getLastRow sheet in
      if Nat.leb lastRow 1 then mret []
      else
        let values := getValues sheet 2 1 (lastRow - 1) COLUMN_COUNT in
        mret (items values)
  end.

End Part000.

(** An item of the later revisions without its [date] field. *)
Definition withoutDate (item : ApiResponseItem) : Part000.ApiResponseItem :=
  {| Part000.id := id item;
     Part000.title := title item;
     Part000.description := description item;
     Part000.imageUrl := imageUrl item;
     Part000.tags := tags item;
     Part000.links := links item;
     Part000.isCommision := isCommision item |}.

(** The line [doGet] logs and the message it answers with, for an
    exception [error] (lines 258-259). *)
Definition logLine (error : Exn) : string := "Error in doGet: " +:+ toString error.

Definition errorMessage (error : Exn) : string :=
  "Internal server error: " +:+ toString error.

(** [strValue === 'true' || strValue === '1' || strValue === 'yes'] (line 415) *)
Definition isTrueWord (strValue : string) : bool :=
  String.eqb strValue "true" || String.eqb strValue "1" || String.eqb strValue "yes".

(** More sample data on the reference runtime *)
Module MoreSamples.
Import Reference Samples.

(** The sheet [portfolio] with other headings, another first column and a
    fourteenth column. *)
Definition relabelled : Sheet :=
  {| getLastRow := getLastRow portfolio;
     cellAt := fun r c =>
       if Nat.eqb r 1 then VString "heading"
       else if Nat.eqb c 1 then VString "first"
       else if Nat.eqb c 14 then VString "https://example.com/fourteenth"
       else cellAt portfolio r c |}.

(** A sheet with the heading row only. *)
Definition headingOnly : Sheet := sheetOfRows [heading].

(** Rows of twelve cells for [Part000]: the rows of [Samples] without
    their first cell. *)
Definition harbor12 : list JSValue := List.tl harbor.

Definition blank12 : list JSValue := List.tl blank.

Definition falseLink12 : list JSValue := List.tl falseLink.

(** The sheet [portfolio] without its first column. *)
Definition portfolio12 : Sheet :=
  {| getLastRow := getLastRow portfolio;
     cellAt := fun r c => cellAt portfolio r (S c) |}.

(** The world [world] with another sheet under the name [Portfolio]. *)
Definition worldOf (sheet : Sheet) : World :=
  {| SPREADSHEET_ID := Some "sheet-1";
     SHEET_NAME := Some "Portfolio";
     DRIVE_FOLDER_ID := Some "folder-1";
     openById := fun _ => Returned {| getSheetByName := fun _ => Some sheet |};
     getFolderById := getFolderById world |}.

(** The world [world] without a folder id and with a folder service that
    always throws. *)
Definition folderless : World :=
  {| SPREADSHEET_ID := SPREADSHEET_ID world;
     SHEET_NAME := SHEET_NAME world;
     DRIVE_FOLDER_ID := None;
     openById := openById world;
     getFolderById := fun _ => Thrown (notFound "Folder") |}.

(** The ninth of March 2024 *)
Definition march9 : @JSDate runtime := {| year := 2024; month := 3; day := 9 |}.

(** A world whose spreadsheet cannot be opened. *)
Definition sheetless : World :=
  {| SPREADSHEET_ID := None;
     SHEET_NAME := None;
     DRIVE_FOLDER_ID := DRIVE_FOLDER_ID world;
     openById := fun _ => Thrown (notFound "Spreadsheet");
     getFolderById := getFolderById world |}.

End MoreSamples.

(** ** The helpers with the calls JavaScript makes at run time

    Above, the helpers are functions on strings: that [String(...)] gives
    a string, on which [split], [trim] and [toLowerCase] exist, is built
    into their types.  Here the same source is embedded with every method
    call looked up on a [JSValue] at run time, as JavaScript does it: a
    string method called on [undefined] or [null], or on a value that has
    no such method, throws a [TypeError], [Utilities.formatDate] throws
    when its first argument is no [Date], and an exception thrown in a
    callback of [map] or [filter] ends the whole [map] or [filter]. *)
Module Dyn.

Definition TypeError (message : string) : Exn :=
  {| exnName := "TypeError"; exnMessage := message |}.

(** Sequencing: the rest runs only when the first part returned. *)
Definition andThen {A B} (m : Completion A) (k : A -> Completion B) : Completion B :=
  match m with
  | Returned a => k a
  | Thrown e => Thrown e
  end.

(** [l.map(f)], [l.map((x, index) => f x index)] and [l.filter(f)] with
    callbacks that may throw *)
Fixpoint map {A B} (f : A -> Completion B) (l : list A) : Completion (list B) :=
  match l with
  | [] => Returned []
  | x :: rest =>
      andThen (f x) (fun y => andThen (map f rest) (fun ys => Returned (y :: ys)))
  end.

Fixpoint mapFrom {A B} (index : nat) (f : A -> nat -> Completion B) (l : list A)
  : Completion (list B) :=
  match l with
  | [] => Returned []
  | x :: rest =>
      andThen (f x index)
        (fun y => andThen (mapFrom (S index) f rest) (fun ys => Returned (y :: ys)))
  end.

Definition mapi {A B} (f : A -> nat -> Completion B) (l : list A) : Completion (list B) :=
  mapFrom 0 f l.

Fixpoint filter {A} (f : A -> Completion bool) (l : list A) : Completion (list A) :=
  match l with
  | [] => Returned []
  | x :: rest =>
      andThen (f x)
        (fun keep =>
           andThen (filter f rest)
             (fun kept => Returned (if keep then x :: kept else kept)))
  end.

(** [receiver.method(...)] for a method of strings *)
Definition stringMethod {R : Runtime} {A} (method : string) (receiver : JSValue)
    (body : string -> A) : Completion A :=
  match receiver with
  | VString s => Returned (body s)
  | VUndefined =>
      Thrown (TypeError ("Cannot read properties of undefined (reading '" +:+ method +:+ "')"))
  | VNull =>
      Thrown (TypeError ("Cannot read properties of null (reading '" +:+ method +:+ "')"))
  | _ => Thrown (TypeError (method +:+ " is not a function"))
  end.

(** [String(value)], a string value *)
Definition String_ {R : Runtime} (value : JSValue) : JSValue := VString (ToString value).

Definition toLowerCase {R : Runtime} (receiver : JSValue) : Completion JSValue :=
  stringMethod "toLowerCase" receiver (fun s => VString (JSString.toLowerCase s)).

Definition trim {R : Runtime} (receiver : JSValue) : Completion JSValue :=
  stringMethod "trim" receiver (fun s => VString (JSString.trim s)).

Definition split {R : Runtime} (receiver : JSValue) (sep : ascii)
  : Completion (list JSValue) :=
  stringMethod "split" receiver (fun s => List.map VString (JSString.split sep s)).

(** [value.length > 0]: reading [length] of [undefined] or [null] throws;
    a value without [length] gives [undefined > 0], which is false. *)
Definition lengthPositive {R : Runtime} (value : JSValue) : Completion bool :=
  match value with
  | VString s => Returned (JSString.nonEmpty s)
  | VUndefined =>
      Thrown (TypeError "Cannot read properties of undefined (reading 'length')")
  | VNull => Thrown (TypeError "Cannot read properties of null (reading 'length')")
  | _ => Returned false
  end.

(** [value === word] for a string literal [word] *)
Definition strictEquals {R : Runtime} (value : JSValue) (word : string) : bool :=
  match value with
  | VString s => String.eqb s word
  | _ => false
  end.

(** [typeof value === 'boolean'] and [value instanceof Date] *)
Definition typeofBoolean {R : Runtime} (value : JSValue) : bool :=
  match value with VBoolean _ => true | _ => false end.

Definition instanceofDate {R : Runtime} (value : JSValue) : bool :=
  match value with VDate _ => true | _ => false end.

(** [Utilities.formatDate(date, timeZone, format)], which accepts a
    [Date] only *)
Definition Utilities_formatDate_ {R : Runtime} (date : JSValue) (timeZone format : string)
  : Completion JSValue :=
  match date with
  | VDate d => Returned (VString (Utilities_formatDate d timeZone format))
  | _ =>
      Thrown {| exnName := "Exception";
                exnMessage :=
                  "The parameters do not match the method signature for Utilities.formatDate." |}
  end.

(** [formatDate] (lines 386-392) *)
Definition formatDate {R : Runtime} (dateValue : JSValue) : Completion JSValue :=
  if negb (truthy dateValue) then Returned (VString EmptyString)
  else if instanceofDate dateValue then
    Utilities_formatDate_ dateValue "Asia/Tokyo" "yyyy-MM-dd"
  else Returned (String_ dateValue).

(** [parseTags] (lines 398-405) *)
Definition parseTags {R : Runtime} (tagsString : JSValue) : Completion (list JSValue) :=
  if negb (truthy tagsString) then Returned []
  else
    andThen (split (String_ tagsString) ",") (fun pieces =>
    andThen (map (fun tag => trim tag) pieces) (fun trimmed =>
    filter (fun tag => lengthPositive tag) trimmed)).

(** [parseBoolean] (lines 410-416) *)
Definition parseBoolean {R : Runtime} (value : JSValue) : Completion JSValue :=
  if typeofBoolean value then Returned value
  else if negb (truthy value) then Returned (VBoolean false)
  else
    andThen (toLowerCase (String_ value)) (fun lowered =>
    andThen (trim lowered) (fun strValue =>
    Returned
      (VBoolean (strictEquals strValue "true" || strictEquals strValue "1"
                 || strictEquals strValue "yes")))).

(** The objects of the [.map] callback, their fields as values *)
Record Link {R : Runtime} := { label : JSValue; url : JSValue }.

Record Item {R : Runtime} := {
  id : nat;
  date : JSValue;
  title : JSValue;
  description : JSValue;
  imageUrl : JSValue;
  tags : list JSValue;
  links : list Link;
  isCommision : JSValue }.

(** The callback of [.map] (lines 313-327), the fields evaluated in the
    order of the object literal *)
Definition itemOf {R : Runtime} (row : list JSValue) (index : nat) : Completion Item :=
  andThen (formatDate (at_ row (COL !! "date"))) (fun dateField =>
  let titleField := String_ (orEmpty (at_ row (COL !! "title"))) in
  let descriptionField := String_ (orEmpty (at_ row (COL !! "description"))) in
  let imageUrlField := String_ (orEmpty (at_ row (COL !! "imageUrl"))) in
  andThen (parseTags (at_ row (COL !! "tags"))) (fun tagsField =>
  let linksField :=
    List.filter (fun link => truthy (url link))
      (List.map
         (fun key => {| label := VString key;
                        url := String_ (orEmpty (at_ row (COL !! key))) |})
         LINK_KEYS) in
  andThen (parseBoolean (at_ row (COL !! "isCommision"))) (fun isCommisionField =>
  Returned
    {| id := index;
       date := dateField;
       title := titleField;
       description := descriptionField;
       imageUrl := imageUrlField;
       tags := tagsField;
       links := linksField;
       isCommision := isCommisionField |}))).

(** The constant [items] (lines 311-327) as a function of [values] *)
Definition items {R : Runtime} (values : list (list JSValue)) : Completion (list Item) :=
  mapi itemOf (List.filter titlePresent values).

(** [getPortfolioItems] (lines 270-330) *)
Definition getPortfolioItems {R : Runtime} (w : World) : GAS (list Item) :=
  spreadsheet ← call (openById w (SPREADSHEET_ID w));
  match getSheetByName spreadsheet (SHEET_NAME w) with
  | None =>
      throw (newError ("Sheet " +:+ JSString.dquote +:+ interpolate (SHEET_NAME w)
                       +:+ JSString.dquote +:+ " not found"))
  | Some sheet =>
      let lastRow := getLastRow sheet in
      if Nat.leb lastRow 1 then mret []
      else
        let values := getValues sheet 2 1 (lastRow - 1) COLUMN_COUNT in
        call (items values)
  end.

End Dyn.

(** A typed item with its fields as values *)
Definition asDynamic {R : Runtime} (item : ApiResponseItem) : Dyn.Item :=
  {| Dyn.id := id item;
     Dyn.date := VString (date item);
     Dyn.title := VString (title item);
     Dyn.description := VString (description item);
     Dyn.imageUrl := VString (imageUrl item);
     Dyn.tags := List.map VString (tags item);
     Dyn.links :=
       List.map (fun link => {| Dyn.label := VString (label link);
                                Dyn.url := VString (url link) |})
         (links item);
     Dyn.isCommision := VBoolean (isCommision item) |}.

(** * Properties *)

(** ** Strings *)
Module JSStringFacts.
Import JSString.

Lemma split_not_nil sep s : split sep s <> [].
Proof.
  destruct s as [|c r]; simpl; [discriminate|].
  destruct (Ascii.eqb c sep); [discriminate|].
  destruct (split sep r); discriminate.
Qed.

(** Joining the pieces with the separator gives the string back. *)
Lemma join_split sep s : join sep (split sep s) = s.
Proof.
  unfold join. induction s as [|c r IH]; simpl; [reflexivity|].
  destruct (Ascii.eqb_spec c sep) as [->|Hne].
  - pose proof (split_not_nil sep r) as Hnil.
    destruct (split sep r) as [|p ps] eqn:E; [contradiction|].
    rewrite <- IH. reflexivity.
  - destruct (split sep r) as [|p ps] eqn:E.
    + exfalso. eapply split_not_nil; eassumption.
    + destruct ps as [|q qs]; cbn [String.concat] in *; rewrite <- IH; reflexivity.
Qed.

(** No piece contains the separator. *)
Lemma split_no_sep sep s : Forall (fun piece => hasChar sep piece = false) (split sep s).
Proof.
  induction s as [|c r IH]; simpl.
  - repeat constructor.
  - destruct (Ascii.eqb c sep) eqn:E.
    + constructor; [reflexivity|assumption].
    + destruct (split sep r) as [|p ps].
      * repeat constructor. simpl. rewrite E. reflexivity.
      * inversion IH; subst. constructor; [|assumption].
        simpl. rewrite E. assumption.
Qed.

Lemma app_cons (x : ascii) (a b : string) : String x a +:+ b = String x (a +:+ b).
Proof. reflexivity. Qed.

Lemma app_empty (b : string) : EmptyString +:+ b = b.
Proof. reflexivity. Qed.

Lemma app_empty_r (a : string) : a +:+ EmptyString = a.
Proof. induction a as [|x a IH]; [reflexivity|]. rewrite app_cons, IH. reflexivity. Qed.

Lemma string_app_assoc (a b c : string) : (a +:+ b) +:+ c = a +:+ (b +:+ c).
Proof.
  induction a as [|x a IH]; [reflexivity|].
  rewrite !app_cons, IH. reflexivity.
Qed.

Lemma length_app (a b : string) :
  String.length (a +:+ b) = String.length a + String.length b.
Proof.
  induction a as [|x a IH]; [reflexivity|].
  rewrite app_cons. cbn [String.length]. rewrite IH. reflexivity.
Qed.

Lemma reverse_app (a b : string) : reverse (a +:+ b) = reverse b +:+ reverse a.
Proof.
  induction a as [|x a IH].
  - rewrite app_empty. cbn [reverse]. rewrite app_empty_r. reflexivity.
  - rewrite app_cons. cbn [reverse]. rewrite IH, string_app_assoc. reflexivity.
Qed.

Lemma reverse_involutive (s : string) : reverse (reverse s) = s.
Proof.
  induction s as [|x s IH]; [reflexivity|].
  cbn [reverse]. rewrite reverse_app, IH. reflexivity.
Qed.

(** Induction on the length of a string *)
Lemma string_length_ind (P : string -> Prop) :
  (forall s, (forall t, String.length t < String.length s -> P t) -> P s) ->
  forall s, P s.
Proof.
  intros step s. remember (String.length s) as n eqn:E.
  revert s E. induction n as [n IH] using lt_wf_ind.
  intros s ->. apply step. intros t Ht. exact (IH _ Ht t eq_refl).
Qed.

Section DropSpaces.
Variable one : ascii -> bool.
Variable two : ascii -> ascii -> bool.
Variable three : ascii -> ascii -> ascii -> bool.

(** What is dropped is in front: the result is the rest of the string. *)
Lemma dropSpaces_suffix s : exists front, s = front +:+ dropSpaces one two three s.
Proof.
  induction s as [s IH] using string_length_ind.
  destruct s as [|c1 r1]; [exists EmptyString; reflexivity|].
  cbn [dropSpaces]. destruct (one c1).
  { destruct (IH r1) as [front E]; [cbn; lia|].
    exists (String c1 front). rewrite app_cons, <- E. reflexivity. }
  destruct r1 as [|c2 r2]; [exists EmptyString; reflexivity|].
  destruct (two c1 c2).
  { destruct (IH r2) as [front E]; [cbn; lia|].
    exists (String c1 (String c2 front)). rewrite !app_cons, <- E. reflexivity. }
  destruct r2 as [|c3 r3]; [exists EmptyString; reflexivity|].
  destruct (three c1 c2 c3); [|exists EmptyString; reflexivity].
  destruct (IH r3) as [front E]; [cbn; lia|].
  exists (String c1 (String c2 (String c3 front))). rewrite !app_cons, <- E. reflexivity.
Qed.

(** Nothing to drop is left in front of the result. *)
Lemma dropSpaces_done s :
  startsWithSpace one two three (dropSpaces one two three s) = false.
Proof.
  induction s as [s IH] using string_length_ind.
  destruct s as [|c1 r1]; [reflexivity|].
  cbn [dropSpaces]. destruct (one c1) eqn:E1; [apply IH; cbn; lia|].
  destruct r1 as [|c2 r2]; [cbn; rewrite E1; reflexivity|].
  destruct (two c1 c2) eqn:E2; [apply IH; cbn; lia|].
  destruct r2 as [|c3 r3]; [cbn; rewrite E1, E2; reflexivity|].
  destruct (three c1 c2 c3) eqn:E3; [apply IH; cbn; lia|].
  cbn. rewrite E1, E2, E3. reflexivity.
Qed.

Lemma dropSpaces_fixed s :
  startsWithSpace one two three s = false -> dropSpaces one two three s = s.
Proof.
  destruct s as [|c1 r1]; [reflexivity|]. cbn.
  destruct (one c1); [discriminate|].
  destruct r1 as [|c2 r2]; [reflexivity|].
  destruct (two c1 c2); [discriminate|].
  destruct r2 as [|c3 r3]; [reflexivity|].
  intros ->. reflexivity.
Qed.

Lemma dropSpaces_idem s :
  dropSpaces one two three (dropSpaces one two three s) = dropSpaces one two three s.
Proof. apply dropSpaces_fixed, dropSpaces_done. Qed.

Lemma startsWithSpace_app a b :
  startsWithSpace one two three a = true ->
  startsWithSpace one two three (a +:+ b) = true.
Proof.
  destruct a as [|c1 r1]; [discriminate|]. rewrite app_cons. cbn.
  destruct (one c1); [reflexivity|].
  destruct r1 as [|c2 r2]; [discriminate|]. rewrite app_cons.
  destruct (two c1 c2); [reflexivity|].
  destruct r2 as [|c3 r3]; [discriminate|]. rewrite app_cons.
  intros ->. reflexivity.
Qed.

(** A front that is dropped whole is dropped before any string. *)
Lemma dropSpaces_front pad s :
  dropSpaces one two three pad = EmptyString ->
  dropSpaces one two three (pad +:+ s) = dropSpaces one two three s.
Proof.
  induction pad as [pad IH] using string_length_ind.
  destruct pad as [|c1 r1]; [reflexivity|].
  rewrite app_cons. cbn [dropSpaces]. destruct (one c1); [apply IH; cbn; lia|].
  destruct r1 as [|c2 r2]; [discriminate|].
  rewrite app_cons. destruct (two c1 c2); [apply IH; cbn; lia|].
  destruct r2 as [|c3 r3]; [discriminate|].
  rewrite app_cons. destruct (three c1 c2 c3); [apply IH; cbn; lia|discriminate].
Qed.

End DropSpaces.

Lemma trimStart_suffix s : exists front, s = front +:+ trimStart s.
Proof. apply dropSpaces_suffix. Qed.

Lemma trimEnd_prefix s : exists back, s = trimEnd s +:+ back.
Proof.
  unfold trimEnd.
  destruct (dropSpaces_suffix isWhiteSpace (fun c2 c1 => isWhiteSpace2 c1 c2)
              (fun c3 c2 c1 => isWhiteSpace3 c1 c2 c3) (reverse s)) as [front E].
  exists (reverse front).
  rewrite <- reverse_app, <- E. symmetry. apply reverse_involutive.
Qed.

Lemma trimEnd_idem s : trimEnd (trimEnd s) = trimEnd s.
Proof. unfold trimEnd. rewrite reverse_involutive, dropSpaces_idem. reflexivity. Qed.

Lemma trimStart_trimEnd s :
  startsWithSpace isWhiteSpace isWhiteSpace2 isWhiteSpace3 s = false ->
  trimStart (trimEnd s) = trimEnd s.
Proof.
  intros Hs. apply dropSpaces_fixed.
  destruct (startsWithSpace isWhiteSpace isWhiteSpace2 isWhiteSpace3 (trimEnd s)) eqn:E;
    [|reflexivity].
  destruct (trimEnd_prefix s) as [back Hback].
  apply (startsWithSpace_app _ _ _ _ back) in E. rewrite <- Hback in E. congruence.
Qed.

(** A trimmed string has no white space left at either end. *)
Lemma trim_idem s : trim (trim s) = trim s.
Proof.
  unfold trim. rewrite (trimStart_trimEnd (trimStart s)) by apply dropSpaces_done.
  apply trimEnd_idem.
Qed.

Lemma nonEmpty_true s : nonEmpty s = true <-> s <> EmptyString.
Proof. destruct s; simpl; split; congruence. Qed.

End JSStringFacts.

Section Properties.
Context {R : Runtime}.
Import JSString JSStringFacts.

(** ** The parsing helpers *)

Lemma parseBoolean_not_boolean (value : JSValue) :
  (forall b, value <> VBoolean b) ->
  parseBoolean value =
    truthy value
    && let strValue := trim (toLowerCase (ToString value)) in
       (String.eqb strValue "true" || String.eqb strValue "1" || String.eqb strValue "yes").
Proof.
  intros Hb. destruct value as [| |b|n|s|d]; try reflexivity.
  - destruct (Hb b); reflexivity.
  - simpl. destruct (Number_truthy n); reflexivity.
  - simpl. destruct (nonEmpty s); reflexivity.
Qed.

(** C4.  [parseBoolean] returns a boolean argument unchanged, [false] for
    every falsy argument that is not a boolean, and otherwise [true]
    exactly when the lower-cased, trimmed [String(value)] is ["true"],
    ["1"] or ["yes"]; with the six sample calls of the specification
    (the call on [0] stated for every falsy number). *)
Theorem parseBoolean_spec :
  (forall value : JSValue,
      (forall b, value = VBoolean b -> parseBoolean value = b)
      /\ ((forall b, value <> VBoolean b) -> truthy value = false ->
          parseBoolean value = false)
      /\ ((forall b, value <> VBoolean b) -> truthy value = true ->
          let strValue := trim (toLowerCase (ToString value)) in
          parseBoolean value = true
          <-> (strValue = "true" \/ strValue = "1" \/ strValue = "yes")))
  /\ parseBoolean (VBoolean true) = true
  /\ parseBoolean (VString "TRUE") = true
  /\ parseBoolean (VString "1") = true
  /\ parseBoolean (VString "no") = false
  /\ (forall n : JSNumber, Number_truthy n = false -> parseBoolean (VNumber n) = false)
  /\ parseBoolean VUndefined = false
  /\ parseBoolean VNull = false
  /\ parseBoolean (VString EmptyString) = false.
Proof.
  split; [|repeat split; try reflexivity].
  - intros value. split; [|split].
    + intros b ->. reflexivity.
    + intros Hb Hf. rewrite (parseBoolean_not_boolean _ Hb), Hf. reflexivity.
    + intros Hb Ht. rewrite (parseBoolean_not_boolean _ Hb), Ht. cbn zeta.
      rewrite andb_true_l, !orb_true_iff, !String.eqb_eq. tauto.
  - intros n Hn. simpl. rewrite Hn. reflexivity.
Qed.

(** C5.  [parseTags] returns no tag for a falsy argument; otherwise it
    cuts [String(tagsString)] at its commas (the pieces joined by commas
    give the string back and none contains a comma), trims every piece and
    keeps, in order, the pieces that are not empty after trimming, so that
    every tag is non-empty and trimmed; with the three sample calls of the
    specification. *)
Theorem parseTags_spec :
  (forall tagsString : JSValue,
      (truthy tagsString = false -> parseTags tagsString = [])
      /\ (truthy tagsString = true ->
          let pieces := split "," (ToString tagsString) in
          join "," pieces = ToString tagsString
          /\ Forall (fun piece => hasChar "," piece = false) pieces
          /\ parseTags tagsString = List.filter nonEmpty (List.map trim pieces)
          /\ Forall (fun tag => tag <> EmptyString /\ trim tag = tag)
               (parseTags tagsString)))
  /\ parseTags (VString "React, TypeScript, GAS") = ["React"; "TypeScript"; "GAS"]
  /\ parseTags (VString "React, TypeScript,  , GAS") = ["React"; "TypeScript"; "GAS"]
  /\ parseTags (VString EmptyString) = []
  /\ parseTags (VString "a,,b") = ["a"; "b"].
Proof.
  split; [|repeat split; reflexivity].
  intros tagsString. unfold parseTags. split.
  - intros ->. reflexivity.
  - intros ->. cbn zeta. cbn [negb].
    split; [apply join_split|]. split; [apply split_no_sep|].
    split; [reflexivity|].
    unfold JSArray.filter, JSArray.map.
    apply List.Forall_forall. intros tag Hin.
    apply List.filter_In in Hin as [Hin Hne].
    apply List.in_map_iff in Hin as (piece & <- & _).
    split; [apply nonEmpty_true; assumption|apply trim_idem].
Qed.

(** ** The rows of [getPortfolioItems] *)

Lemma titlePresent_true (row : list JSValue) :
  titlePresent row = true
  <-> at_ row (COL !! "title") <> VUndefined
      /\ at_ row (COL !! "title") <> VString EmptyString.
Proof.
  unfold titlePresent. destruct (at_ row (COL !! "title")) as [| |b|n|s|d]; simpl;
    try (split; [intros _; split; discriminate|reflexivity]).
  - split; [discriminate|intros [H _]; contradiction].
  - destruct s; simpl.
    + split; [discriminate|intros [_ H]; contradiction].
    + split; [intros _; split; discriminate|reflexivity].
Qed.

Lemma items_lookup (values : list (list JSValue)) (k : nat) :
  items values !! k
  = (fun row => itemOf row k) <$> List.filter titlePresent values !! k.
Proof. unfold items, JSArray.mapi, JSArray.filter. apply list_lookup_imap. Qed.

Lemma items_length (values : list (list JSValue)) :
  length (items values) = length (List.filter titlePresent values).
Proof. unfold items, JSArray.mapi, JSArray.filter. apply length_imap. Qed.

(** C1.  The ids of the items are 0, 1, 2, ... in the order of the rows
    that pass the title filter: the item at rank [k] is built from the
    [k]-th retained row and has id [k]; a row whose title cell, the cell
    [row[COL.title]], is [undefined] or the empty string gives no item and
    takes no id, so the items are those of the grid without that row. *)
Theorem items_ids (values : list (list JSValue)) :
  List.map id (items values) = seq 0 (length (List.filter titlePresent values))
  /\ (forall k row,
         List.filter titlePresent values !! k = Some row ->
         items values !! k = Some (itemOf row k) /\ id (itemOf row k) = k)
  /\ (forall k item,
         items values !! k = Some item ->
         id item = k /\ exists row, List.filter titlePresent values !! k = Some row)
  /\ (forall before row after,
         values = (before ++ row :: after)%list ->
         at_ row (COL !! "title") = VUndefined
         \/ at_ row (COL !! "title") = VString EmptyString ->
         items values = items (before ++ after)%list).
Proof.
  split; [|split; [|split]].
  - unfold items, JSArray.mapi, JSArray.filter.
    change (List.map id) with (fmap (M:=list) id). rewrite fmap_imap.
    rewrite <- (list_fmap_id (seq 0 _)), <- (imap_seq_0 (List.filter titlePresent values)).
    apply imap_ext. reflexivity.
  - intros k row Hk. rewrite items_lookup, Hk. split; reflexivity.
  - intros k item. rewrite items_lookup.
    destruct (List.filter titlePresent values !! k) as [row|] eqn:E; simpl; [|discriminate].
    intros [= <-]. split; [reflexivity|eauto].
  - intros before row after -> Hcell. unfold items, JSArray.filter.
    rewrite !List.filter_app. cbn [List.filter].
    assert (titlePresent row = false) as ->; [|reflexivity].
    destruct (titlePresent row) eqn:E; [|reflexivity].
    apply titlePresent_true in E as [H1 H2]. destruct Hcell; contradiction.
Qed.

Lemma ToString_orEmpty (value : JSValue) :
  ToString (orEmpty value) = if truthy value then ToString value else EmptyString.
Proof. unfold orEmpty. destruct (truthy value); reflexivity. Qed.

Lemma ToString_truthy `{!RuntimeLaws R} (value : JSValue) :
  truthy value = true -> ToString value <> EmptyString.
Proof.
  destruct value as [| |b|n|s|d]; simpl; try discriminate.
  - intros ->. discriminate.
  - intros _. apply Number_toString_nonempty.
  - apply nonEmpty_true.
  - intros _. apply Date_toString_nonempty.
Qed.

Lemma nonEmpty_orEmpty `{!RuntimeLaws R} (value : JSValue) :
  nonEmpty (ToString (orEmpty value)) = truthy value.
Proof.
  rewrite ToString_orEmpty. destruct (truthy value) eqn:E; [|reflexivity].
  apply nonEmpty_true, ToString_truthy, E.
Qed.

(** C2, amended.  A row is retained exactly when its title cell, the
    cell [row[COL.title]], is neither [undefined] nor the empty string;
    the title of its item is [String(cell)] when the cell is truthy and
    the empty string otherwise, so it is non-empty exactly when the cell
    is truthy. *)
Theorem items_title `{!RuntimeLaws R} (values : list (list JSValue)) :
  (forall row,
      In row (List.filter titlePresent values)
      <-> In row values
          /\ at_ row (COL !! "title") <> VUndefined
          /\ at_ row (COL !! "title") <> VString EmptyString)
  /\ (forall k item,
         items values !! k = Some item ->
         exists row,
           List.filter titlePresent values !! k = Some row
           /\ title item
              = (if truthy (at_ row (COL !! "title"))
                 then ToString (at_ row (COL !! "title")) else EmptyString)
           /\ (title item <> EmptyString <-> truthy (at_ row (COL !! "title")) = true)).
Proof.
  split.
  - intros row. rewrite List.filter_In, titlePresent_true. reflexivity.
  - intros k item. rewrite items_lookup.
    destruct (List.filter titlePresent values !! k) as [row|] eqn:E; simpl; [|discriminate].
    intros [= <-]. exists row. split; [reflexivity|]. split.
    + apply ToString_orEmpty.
    + cbn [title itemOf]. rewrite <- nonEmpty_true, nonEmpty_orEmpty. reflexivity.
Qed.

Lemma LINK_KEYS_NoDup : NoDup LINK_KEYS.
Proof. apply (bool_decide_unpack _). vm_compute. reflexivity. Qed.

Lemma filter_map_keys {A B} (f g : A -> B) (p : A -> bool) (q : B -> bool) (l : list A) :
  (forall a, q (f a) = p a) ->
  (forall a, p a = true -> f a = g a) ->
  List.filter q (List.map f l) = List.map g (List.filter p l).
Proof.
  intros Hq Hfg. induction l as [|a l IH]; simpl; [reflexivity|].
  rewrite Hq. destruct (p a) eqn:E; simpl; [|assumption].
  rewrite IH, (Hfg a E). reflexivity.
Qed.

(** C3, amended.  The links of an item are, in the order of the seven
    link keys (Amazon, DLsite, 公式サイト, Youtube, ニコニコ, メロンブックス,
    リンク, all different), one entry [{label: key, url: String(cell)}] for
    each key whose cell [row[COL[key]]] is truthy, and nothing for a cell
    that is falsy (empty, [undefined], [null], [false], 0, NaN); no entry
    has an empty url. *)
Theorem links_spec `{!RuntimeLaws R} (row : list JSValue) (index : nat) :
  links (itemOf row index)
  = List.map (fun key => {| label := key; url := ToString (at_ row (COL !! key)) |})
      (List.filter (fun key => truthy (at_ row (COL !! key))) LINK_KEYS)
  /\ LINK_KEYS
     = ["Amazon"; "DLsite"; "公式サイト"; "Youtube"; "ニコニコ"; "メロンブックス"; "リンク"]
  /\ NoDup LINK_KEYS
  /\ Forall (fun link => url link <> EmptyString) (links (itemOf row index)).
Proof.
  cbn [links itemOf]. unfold linksOf, JSArray.filter, JSArray.map.
  split; [|split; [reflexivity|split; [apply LINK_KEYS_NoDup|]]].
  - apply filter_map_keys.
    + intros key. cbn [url]. apply nonEmpty_orEmpty.
    + intros key Hk. rewrite ToString_orEmpty, Hk. reflexivity.
  - apply List.Forall_forall. intros link Hin.
    apply List.filter_In in Hin as [_ Hne]. apply nonEmpty_true, Hne.
Qed.

(** The grid read from a sheet is [COLUMN_COUNT] cells wide, so the index
    [COL.リンク] lies outside every row of it, and no item read from a
    sheet has a link labelled リンク. *)
Remark link_index_outside_grid (sheet : Sheet) (row : list JSValue) :
  In row (dataValues sheet) ->
  length row = 13
  /\ COL !! "リンク" = Some 13
  /\ at_ row (COL !! "リンク") = VUndefined
  /\ forall index link, In link (links (itemOf row index)) -> label link <> "リンク".
Proof.
  intros Hin.
  assert (length row = 13) as Hlen.
  { unfold dataValues in Hin. destruct (Nat.leb (getLastRow sheet) 1); [destruct Hin|].
    unfold getValues in Hin. apply List.in_map_iff in Hin as (r & <- & _).
    rewrite List.length_map, List.length_seq. reflexivity. }
  assert (at_ row (COL !! "リンク") = VUndefined) as Hcell.
  { change (COL !! "リンク") with (Some 13). cbn [at_].
    rewrite (proj2 (lookup_ge_None row 13)) by lia. reflexivity. }
  split; [exact Hlen|]. split; [reflexivity|]. split; [exact Hcell|].
  intros index link Hlink Hlabel. cbn [links itemOf] in Hlink.
  unfold linksOf, JSArray.filter, JSArray.map in Hlink.
  apply List.filter_In in Hlink as [Hlink Hurl].
  apply List.in_map_iff in Hlink as (key & <- & _).
  cbn [label] in Hlabel. subst key. cbn [url] in Hurl.
  rewrite Hcell in Hurl. discriminate Hurl.
Qed.

(** ** Running the two collectors *)

Lemma getPortfolioItems_run (w : World) (log : list string) :
  getPortfolioItems w log =
  match openById w (SPREADSHEET_ID w) with
  | Thrown error => (Thrown error, log)
  | Returned spreadsheet =>
      match getSheetByName spreadsheet (SHEET_NAME w) with
      | None =>
          (Thrown (newError ("Sheet " +:+ dquote +:+ interpolate (SHEET_NAME w)
                             +:+ dquote +:+ " not found")), log)
      | Some sheet => (Returned (items (dataValues sheet)), log)
      end
  end.
Proof.
  unfold getPortfolioItems, mbind, GAS_bind, bind, call, dataValues.
  destruct (openById w (SPREADSHEET_ID w)) as [spreadsheet|error]; [|reflexivity].
  destruct (getSheetByName spreadsheet (SHEET_NAME w)) as [sheet|]; [|reflexivity].
  destruct (Nat.leb (getLastRow sheet) 1); reflexivity.
Qed.

Lemma includes_elem_of (l : list string) (x : string) :
  JSArray.includes l x = true <-> x ∈ l.
Proof.
  unfold JSArray.includes. rewrite List.existsb_exists. split.
  - intros (y & Hin & Heq). apply String.eqb_eq in Heq as ->.
    apply list_elem_of_In, Hin.
  - intros Hin. exists x. split; [apply list_elem_of_In, Hin|apply String.eqb_refl].
Qed.

Lemma while_hasNext_acc (files : list DriveFile) (images : list ImageData) :
  while_hasNext files images
  = (images ++ (imageOf <$> filter (fun file => getMimeType file ∈ imageMimeTypes) files))%list.
Proof.
  revert images. induction files as [|file files IH]; intros images.
  - cbn [while_hasNext]. rewrite filter_nil, fmap_nil, app_nil_r. reflexivity.
  - cbn [while_hasNext]. rewrite filter_cons.
    destruct (JSArray.includes imageMimeTypes (getMimeType file)) eqn:E.
    + apply includes_elem_of in E. rewrite decide_True by exact E.
      rewrite IH. unfold JSArray.push. rewrite <- app_assoc. reflexivity.
    + rewrite decide_False; [apply IH|].
      intros Hin. apply includes_elem_of in Hin. congruence.
Qed.

Lemma getDriveImages_run (w : World) (log : list string) :
  getDriveImages w log =
  match DRIVE_FOLDER_ID w with
  | None | Some EmptyString =>
      (Thrown (newError "DRIVE_FOLDER_ID is not set in script properties"), log)
  | Some folderId =>
      match getFolderById w folderId with
      | Thrown error => (Thrown error, log)
      | Returned folder => (Returned (while_hasNext (getFiles folder) []), log)
      end
  end.
Proof.
  unfold getDriveImages. destruct (DRIVE_FOLDER_ID w) as [[|c folderId]|]; reflexivity.
Qed.

(** C8.  The loop of [getDriveImages] gives one record per file of the
    listing whose MIME type is one of image/png, image/jpeg, image/gif,
    image/webp and image/svg+xml: the record of every file of one of these
    five types is in the result, and every record has such a type; a file
    of another type leaves the result as if it were not in the folder, and
    once the folder is open the collector returns whatever the files are. *)
Theorem getDriveImages_allow_list :
  (forall files : list DriveFile,
      Forall2 (fun file image => image = imageOf file)
        (filter
           (fun file =>
              getMimeType file
              ∈ ["image/png"; "image/jpeg"; "image/gif"; "image/webp"; "image/svg+xml"])
           files)
        (while_hasNext files [])
      /\ (forall file, file ∈ files ->
            getMimeType file = "image/png" \/ getMimeType file = "image/jpeg"
            \/ getMimeType file = "image/gif" \/ getMimeType file = "image/webp"
            \/ getMimeType file = "image/svg+xml" ->
            imageOf file ∈ while_hasNext files [])
      /\ (forall image, image ∈ while_hasNext files [] ->
            mimeType image
            ∈ ["image/png"; "image/jpeg"; "image/gif"; "image/webp"; "image/svg+xml"])
      /\ (forall before file after,
            files = (before ++ file :: after)%list ->
            getMimeType file
            ∉ ["image/png"; "image/jpeg"; "image/gif"; "image/webp"; "image/svg+xml"] ->
            while_hasNext files [] = while_hasNext (before ++ after) []))
  /\ (forall (w : World) (folderId : string) (folder : Folder) (log : list string),
         DRIVE_FOLDER_ID w = Some folderId ->
         folderId <> EmptyString ->
         getFolderById w folderId = Returned folder ->
         getDriveImages w log = (Returned (while_hasNext (getFiles folder) []), log)).
Proof.
  split.
  - intros files. rewrite while_hasNext_acc, app_nil_l. split; [|split; [|split]].
    + apply Forall2_fmap_r, Forall_Forall2_diag, Forall_true. reflexivity.
    + intros file Hin Htype. apply list_elem_of_fmap. exists file. split; [reflexivity|].
      apply list_elem_of_filter. split; [|exact Hin].
      unfold imageMimeTypes. destruct Htype as [-> | [-> | [-> | [-> | ->]]]];
        apply list_elem_of_In; cbn; auto 6.
    + intros image Hin. apply list_elem_of_fmap in Hin as (file & -> & Hin).
      apply list_elem_of_filter in Hin as [Hin _]. exact Hin.
    + intros before file after -> Hout. rewrite while_hasNext_acc, app_nil_l.
      rewrite !filter_app, filter_cons, decide_False by exact Hout. reflexivity.
  - intros w folderId folder log Hid Hne Hfolder.
    rewrite getDriveImages_run, Hid. destruct folderId; [contradiction|].
    rewrite Hfolder. reflexivity.
Qed.


(** ** The router *)

Lemma dispatch_other (w : World) (action : string) :
  action <> "images" -> dispatch w action = dispatch w "items".
Proof.
  intros Hne. unfold dispatch.
  destruct (String.eqb_spec action "images") as [E|_]; [contradiction|].
  destruct (String.eqb action "items"); reflexivity.
Qed.

Lemma dispatch_items (w : World) (log : list string) :
  dispatch w "items" log =
  match getPortfolioItems w log with
  | (Returned portfolio, log') => (Returned (OfItems portfolio), log')
  | (Thrown error, log') => (Thrown error, log')
  end.
Proof.
  unfold dispatch, mbind, GAS_bind, bind. cbn [String.eqb Ascii.eqb Bool.eqb].
  destruct (getPortfolioItems w log) as [[portfolio|error] log']; reflexivity.
Qed.

Lemma dispatch_images (w : World) (log : list string) :
  dispatch w "images" log =
  match getDriveImages w log with
  | (Returned images, log') => (Returned (OfImages images), log')
  | (Thrown error, log') => (Thrown error, log')
  end.
Proof.
  unfold dispatch, mbind, GAS_bind, bind. cbn [String.eqb Ascii.eqb Bool.eqb].
  destruct (getDriveImages w log) as [[images|error] log']; reflexivity.
Qed.

Lemma doGet_run (w : World) (e : option Event) (log : list string) :
  doGet w e log =
  match dispatch w (actionOf e) log with
  | (Returned result, log') =>
      (Returned {| outMimeType := JSON; content := JSON_stringify result |}, log')
  | (Thrown error, log') =>
      (Returned (createErrorResponse ("Internal server error: " +:+ toString error) (Some 500)),
       (log' ++ ["Error in doGet: " +:+ toString error])%list)
  end.
Proof.
  unfold doGet, try_catch, mbind, GAS_bind, bind.
  destruct (dispatch w (actionOf e) log) as [[result|error] log']; reflexivity.
Qed.

Lemma actionOf_images (e : option Event) :
  actionOf e = "images"
  <-> exists ev p, e = Some ev /\ parameter ev = Some p /\ p !! "action" = Some "images".
Proof.
  unfold actionOf. split.
  - destruct e as [ev|]; [|discriminate].
    destruct (parameter ev) as [p|] eqn:Ep; [|discriminate].
    destruct (p !! "action") as [a|] eqn:Ea; [|discriminate].
    destruct a as [|c a]; [discriminate|]. cbn [nonEmpty].
    intros E. exists ev, p. rewrite <- E. auto.
  - intros (ev & p & -> & -> & ->). reflexivity.
Qed.

(** C6.  [doGet] always returns a JSON text output and never throws: it
    carries either the result of the dispatch or, when the dispatch threw,
    the envelope [{error: true, message, statusCode: 500}] whose message
    is the rendered exception, after one log line.  So do the missing
    sheet and the unset folder id. *)
Theorem doGet_catches (w : World) :
  (forall (e : option Event) (log : list string),
      exists output log',
        doGet w e log = (Returned output, log')
        /\ outMimeType output = JSON
        /\ ((exists result,
                dispatch w (actionOf e) log = (Returned result, log')
                /\ content output = JSON_stringify result)
            \/ (exists error log1,
                   dispatch w (actionOf e) log = (Thrown error, log1)
                   /\ log' = (log1 ++ ["Error in doGet: " +:+ toString error])%list
                   /\ content output
                      = JSON_stringify
                          (OfError {| error := true;
                                      message := "Internal server error: " +:+ toString error;
                                      statusCode := 500 |}))))
  /\ (forall (e : option Event) (log : list string) (spreadsheet : Spreadsheet),
         actionOf e <> "images" ->
         openById w (SPREADSHEET_ID w) = Returned spreadsheet ->
         getSheetByName spreadsheet (SHEET_NAME w) = None ->
         fst (doGet w e log)
         = Returned
             {| outMimeType := JSON;
                content :=
                  JSON_stringify
                    (OfError {| error := true;
                                message := "Internal server error: Error: Sheet " +:+ dquote
                                           +:+ interpolate (SHEET_NAME w) +:+ dquote
                                           +:+ " not found";
                                statusCode := 500 |}) |})
  /\ (forall (e : option Event) (log : list string),
         actionOf e = "images" ->
         DRIVE_FOLDER_ID w = None \/ DRIVE_FOLDER_ID w = Some EmptyString ->
         fst (doGet w e log)
         = Returned
             {| outMimeType := JSON;
                content :=
                  JSON_stringify
                    (OfError {| error := true;
                                message := "Internal server error: Error: DRIVE_FOLDER_ID is not set in script properties";
                                statusCode := 500 |}) |}).
Proof.
  split; [|split].
  - intros e log. rewrite doGet_run.
    destruct (dispatch w (actionOf e) log) as [[result|error] log1] eqn:E.
    + eexists _, _. split; [reflexivity|]. split; [reflexivity|]. left. eauto.
    + eexists _, _. split; [reflexivity|]. split; [reflexivity|]. right.
      exists error, log1. auto.
  - intros e log spreadsheet Ha Hopen Hsheet.
    rewrite doGet_run, (dispatch_other w _ Ha), dispatch_items, getPortfolioItems_run.
    rewrite Hopen, Hsheet. reflexivity.
  - intros e log Ha Hid.
    rewrite doGet_run, Ha, dispatch_images, getDriveImages_run.
    destruct Hid as [-> | ->]; reflexivity.
Qed.

(** C7.  The response depends on the request only through whether its
    [action] parameter is ["images"]: two requests that agree on that are
    answered alike in the same world; a request with another action, or
    none, is answered as the bare request, with all the items; and a
    parameter other than [action] changes nothing.  A request whose
    action is ["images"] is answered from [getDriveImages], with the
    images it returns or the envelope of what it throws, and every other
    request in the same way from [getPortfolioItems]. *)
Theorem doGet_action_only (w : World) :
  (forall e1 e2 : option Event,
      (actionOf e1 = "images" <-> actionOf e2 = "images") ->
      doGet w e1 = doGet w e2)
  /\ (forall e : option Event,
         actionOf e = "images"
         <-> exists ev p, e = Some ev /\ parameter ev = Some p
                          /\ p !! "action" = Some "images")
  /\ (forall (e : option Event) (log : list string),
         actionOf e <> "images" ->
         doGet w e = doGet w None
         /\ forall portfolio log',
              getPortfolioItems w log = (Returned portfolio, log') ->
              doGet w e log
              = (Returned {| outMimeType := JSON;
                             content := JSON_stringify (OfItems portfolio) |}, log'))
  /\ (forall (p : gmap string string) (key v : string),
         key <> "action" ->
         doGet w (Some {| parameter := Some (<[key:=v]> p) |})
         = doGet w (Some {| parameter := Some p |}))
  /\ (forall (e : option Event) (log : list string),
         actionOf e = "images" ->
         doGet w e log
         = match getDriveImages w log with
           | (Returned images, log') =>
               (Returned {| outMimeType := JSON;
                            content := JSON_stringify (OfImages images) |}, log')
           | (Thrown error, log') =>
               (Returned
                  (createErrorResponse ("Internal server error: " +:+ toString error)
                     (Some 500)),
                (log' ++ ["Error in doGet: " +:+ toString error])%list)
           end)
  /\ (forall (e : option Event) (log : list string),
         actionOf e <> "images" ->
         doGet w e log
         = match getPortfolioItems w log with
           | (Returned portfolio, log') =>
               (Returned {| outMimeType := JSON;
                            content := JSON_stringify (OfItems portfolio) |}, log')
           | (Thrown error, log') =>
               (Returned
                  (createErrorResponse ("Internal server error: " +:+ toString error)
                     (Some 500)),
                (log' ++ ["Error in doGet: " +:+ toString error])%list)
           end).
Proof.
  assert (forall e1 e2 : option Event,
             (actionOf e1 = "images" <-> actionOf e2 = "images") ->
             doGet w e1 = doGet w e2) as Hsame.
  { intros e1 e2 Hiff. unfold doGet. cbn zeta.
    destruct (decide (actionOf e1 = "images")) as [E1|N1].
    - rewrite E1, (proj1 Hiff E1). reflexivity.
    - assert (actionOf e2 <> "images") as N2 by (intros E2; apply N1, Hiff, E2).
      rewrite (dispatch_other w _ N1), (dispatch_other w _ N2). reflexivity. }
  split; [exact Hsame|]. split; [exact actionOf_images|]. split.
  - intros e log Ha. split.
    + apply Hsame. split; [contradiction|discriminate].
    + intros portfolio log' Hrun.
      rewrite doGet_run, (dispatch_other w _ Ha), dispatch_items, Hrun. reflexivity.
  - split; [|split].
    + intros p key v Hkey. apply Hsame. unfold actionOf. cbn [parameter].
      rewrite lookup_insert_ne by exact Hkey. reflexivity.
    + intros e log Ha. rewrite doGet_run, Ha, dispatch_images.
      destruct (getDriveImages w log) as [[images|error] log']; reflexivity.
    + intros e log Ha. rewrite doGet_run, (dispatch_other w _ Ha), dispatch_items.
      destruct (getPortfolioItems w log) as [[portfolio|error] log']; reflexivity.
Qed.

(** The helpers with run-time calls return what the typed helpers give. *)

Lemma Dyn_formatDate (dateValue : JSValue) :
  Dyn.formatDate dateValue = Returned (VString (formatDate dateValue)).
Proof.
  unfold Dyn.formatDate, formatDate.
  destruct (truthy dateValue); cbn [negb]; [|reflexivity].
  destruct dateValue; reflexivity.
Qed.

Lemma Dyn_map_trim (pieces : list string) :
  Dyn.map (fun tag => Dyn.trim tag) (List.map VString pieces)
  = Returned (List.map VString (List.map trim pieces)).
Proof.
  induction pieces as [|piece pieces IH]; [reflexivity|].
  cbn [List.map Dyn.map]. rewrite IH. reflexivity.
Qed.

Lemma Dyn_filter_length (pieces : list string) :
  Dyn.filter (fun tag => Dyn.lengthPositive tag) (List.map VString pieces)
  = Returned (List.map VString (List.filter nonEmpty pieces)).
Proof.
  induction pieces as [|piece pieces IH]; [reflexivity|].
  cbn [List.map Dyn.filter List.filter]. rewrite IH. cbn.
  destruct (nonEmpty piece); reflexivity.
Qed.

Lemma Dyn_parseTags (tagsString : JSValue) :
  Dyn.parseTags tagsString = Returned (List.map VString (parseTags tagsString)).
Proof.
  unfold Dyn.parseTags, parseTags.
  destruct (truthy tagsString); cbn [negb]; [|reflexivity].
  unfold Dyn.split, Dyn.String_, Dyn.stringMethod, Dyn.andThen.
  rewrite Dyn_map_trim. apply Dyn_filter_length.
Qed.

Lemma Dyn_parseBoolean (value : JSValue) :
  Dyn.parseBoolean value = Returned (VBoolean (parseBoolean value)).
Proof.
  destruct value as [| |b|n|s|d]; try reflexivity.
  - unfold Dyn.parseBoolean, parseBoolean. cbn [Dyn.typeofBoolean truthy].
    destruct (Number_truthy n); reflexivity.
  - unfold Dyn.parseBoolean, parseBoolean. cbn [Dyn.typeofBoolean truthy].
    destruct (nonEmpty s); reflexivity.
Qed.

Lemma Dyn_links (row : list JSValue) (keys : list string) :
  List.filter (fun link => truthy (Dyn.url link))
    (List.map
       (fun key => {| Dyn.label := VString key;
                      Dyn.url := Dyn.String_ (orEmpty (at_ row (COL !! key))) |})
       keys)
  = List.map (fun link => {| Dyn.label := VString (label link);
                             Dyn.url := VString (url link) |})
      (List.filter (fun link => nonEmpty (url link))
         (List.map
            (fun key => {| label := key; url := ToString (orEmpty (at_ row (COL !! key))) |})
            keys)).
Proof.
  induction keys as [|key keys IH]; [reflexivity|].
  cbn [List.map List.filter Dyn.url url Dyn.String_ truthy]. rewrite IH.
  destruct (nonEmpty (ToString (orEmpty (at_ row (COL !! key))))); reflexivity.
Qed.

Lemma Dyn_itemOf (row : list JSValue) (index : nat) :
  Dyn.itemOf row index = Returned (asDynamic (itemOf row index)).
Proof.
  unfold Dyn.itemOf. rewrite Dyn_formatDate, Dyn_parseTags, Dyn_parseBoolean.
  cbn [Dyn.andThen]. rewrite Dyn_links. reflexivity.
Qed.

Lemma Dyn_mapFrom (rows : list (list JSValue)) (n : nat) :
  Dyn.mapFrom n Dyn.itemOf rows
  = Returned (List.map asDynamic (imap (fun i row => itemOf row (n + i)) rows)).
Proof.
  revert n. induction rows as [|row rows IH]; intros n; [reflexivity|].
  cbn [Dyn.mapFrom]. rewrite Dyn_itemOf, IH. cbn [Dyn.andThen].
  rewrite imap_cons. cbn [List.map]. rewrite Nat.add_0_r. do 3 f_equal.
  apply imap_ext. intros i r _. cbn. f_equal. lia.
Qed.

Lemma Dyn_items (values : list (list JSValue)) :
  Dyn.items values = Returned (List.map asDynamic (items values)).
Proof. unfold Dyn.items, Dyn.mapi. apply Dyn_mapFrom. Qed.

(** The calls themselves do throw on other values. *)
Example dynamic_calls_throw :
  Dyn.trim VUndefined
  = Thrown (Dyn.TypeError "Cannot read properties of undefined (reading 'trim')")
  /\ Dyn.split (VBoolean true) "," = Thrown (Dyn.TypeError "split is not a function")
  /\ Dyn.lengthPositive VNull
     = Thrown (Dyn.TypeError "Cannot read properties of null (reading 'length')")
  /\ (exists error,
        Dyn.Utilities_formatDate_ (VString "2024") "Asia/Tokyo" "yyyy-MM-dd" = Thrown error).
Proof. repeat split; try reflexivity. eexists. reflexivity. Qed.

(** C9.  With every method call looked up at run time, so that a call on
    a value without the method would throw, [formatDate], [parseTags] and
    [parseBoolean] return on every value, with the result of the typed
    helpers, and so does the shaping of every grid.  Hence, whatever the
    cells hold, once the sheet is found [getPortfolioItems] returns one
    item for every retained row of the whole grid, each built by the
    parsing helpers; it throws only when the spreadsheet cannot be opened
    or the sheet is missing, and then [doGet] answers with the error
    envelope: the answer is all the items or an error, never some of the
    items. *)
Theorem getPortfolioItems_all_or_error (w : World) (log : list string) :
  (forall value, Dyn.formatDate value = Returned (VString (formatDate value)))
  /\ (forall value, Dyn.parseTags value = Returned (List.map VString (parseTags value)))
  /\ (forall value, Dyn.parseBoolean value = Returned (VBoolean (parseBoolean value)))
  /\ (forall row index, Dyn.itemOf row index = Returned (asDynamic (itemOf row index)))
  /\ (forall values, Dyn.items values = Returned (List.map asDynamic (items values)))
  /\ Dyn.getPortfolioItems w log
     = match getPortfolioItems w log with
       | (Returned portfolio, log') => (Returned (List.map asDynamic portfolio), log')
       | (Thrown error, log') => (Thrown error, log')
       end
  /\ (forall spreadsheet sheet,
      openById w (SPREADSHEET_ID w) = Returned spreadsheet ->
      getSheetByName spreadsheet (SHEET_NAME w) = Some sheet ->
      getPortfolioItems w log = (Returned (items (dataValues sheet)), log)
      /\ length (items (dataValues sheet))
         = length (List.filter titlePresent (dataValues sheet))
      /\ (forall k row,
             List.filter titlePresent (dataValues sheet) !! k = Some row ->
             items (dataValues sheet) !! k
             = Some {| id := k;
                       date := formatDate (at_ row (COL !! "date"));
                       title := ToString (orEmpty (at_ row (COL !! "title")));
                       description := ToString (orEmpty (at_ row (COL !! "description")));
                       imageUrl := ToString (orEmpty (at_ row (COL !! "imageUrl")));
                       tags := parseTags (at_ row (COL !! "tags"));
                       links := linksOf row;
                       isCommision := parseBoolean (at_ row (COL !! "isCommision")) |})
      /\ forall e, actionOf e <> "images" ->
           doGet w e log
           = (Returned {| outMimeType := JSON;
                          content := JSON_stringify (OfItems (items (dataValues sheet))) |},
              log))
  /\ ((exists sheet, getPortfolioItems w log = (Returned (items (dataValues sheet)), log))
      \/ (exists error,
             getPortfolioItems w log = (Thrown error, log)
             /\ forall e, actionOf e <> "images" ->
                  fst (doGet w e log)
                  = Returned (createErrorResponse
                                ("Internal server error: " +:+ toString error) (Some 500)))).
Proof.
  split; [exact Dyn_formatDate|]. split; [exact Dyn_parseTags|].
  split; [exact Dyn_parseBoolean|]. split; [exact Dyn_itemOf|]. split; [exact Dyn_items|].
  split.
  { rewrite getPortfolioItems_run.
    unfold Dyn.getPortfolioItems, mbind, GAS_bind, bind, call.
    destruct (openById w (SPREADSHEET_ID w)) as [spreadsheet|error]; [|reflexivity].
    destruct (getSheetByName spreadsheet (SHEET_NAME w)) as [sheet|]; [|reflexivity].
    unfold dataValues. destruct (Nat.leb (getLastRow sheet) 1); [reflexivity|].
    rewrite Dyn_items. reflexivity. }
  split.
  - intros spreadsheet sheet Hopen Hsheet.
    assert (getPortfolioItems w log = (Returned (items (dataValues sheet)), log)) as Hrun.
    { rewrite getPortfolioItems_run, Hopen, Hsheet. reflexivity. }
    split; [exact Hrun|]. split; [apply items_length|]. split.
    + intros k row Hk. rewrite items_lookup, Hk. reflexivity.
    + intros e Ha. rewrite doGet_run, (dispatch_other w _ Ha), dispatch_items, Hrun.
      reflexivity.
  - pose proof (getPortfolioItems_run w log) as Hrun.
    assert (forall error, getPortfolioItems w log = (Thrown error, log) ->
              forall e, actionOf e <> "images" ->
                fst (doGet w e log)
                = Returned (createErrorResponse
                              ("Internal server error: " +:+ toString error) (Some 500))) as Herr.
    { intros error Hthrow e Ha.
      rewrite doGet_run, (dispatch_other w _ Ha), dispatch_items, Hthrow. reflexivity. }
    destruct (openById w (SPREADSHEET_ID w)) as [spreadsheet|error].
    + destruct (getSheetByName spreadsheet (SHEET_NAME w)) as [sheet|].
      * left. eauto.
      * right. eauto.
    + right. eauto.
Qed.

End Properties.

(** * The reference runtime obeys the laws *)

Lemma pretty_N_go_nonempty (x : N) (s : string) :
  s <> EmptyString -> pretty_N_go x s <> EmptyString.
Proof.
  revert s. induction (N.lt_wf_0 x) as [x _ IH]. intros s Hs.
  destruct (N.eq_dec x 0%N) as [->|Hx].
  - rewrite pretty_N_go_0. exact Hs.
  - rewrite pretty_N_go_step by lia. apply IH; [apply N.div_lt; lia|discriminate].
Qed.

Lemma pretty_positive_nonempty (p : positive) : pretty p <> EmptyString.
Proof.
  unfold pretty, pretty_positive, pretty, pretty_N.
  rewrite decide_False by discriminate.
  rewrite pretty_N_go_step by lia. apply pretty_N_go_nonempty. discriminate.
Qed.

#[global] Instance reference_laws : RuntimeLaws Reference.runtime.
Proof.
  split.
  - intros [|p|p]; cbn [Number_toString Reference.runtime]; unfold pretty, pretty_Z.
    + discriminate.
    + apply pretty_positive_nonempty.
    + discriminate.
  - intros d. cbn [Date_toString Reference.runtime].
    destruct (Reference.formatCivil d); discriminate.
Qed.

(** * The script on the sample sheet and folder *)
Section Evaluation.
Import Reference Samples.

(** The script on the sample sheet: the blank row is dropped and takes
    no id; the cells of unexpected types of the last row are rendered. *)
Example portfolio_items :
  fst (getPortfolioItems world [])
  = Returned
      [ {| id := 0; date := "2024-03-09"; title := "Quiet Harbor";
           description := "Cover illustration";
           imageUrl := "https://example.com/harbor.png";
           tags := ["illustration"; "cover"];
           links :=
             [ {| label := "Amazon"; url := "https://www.amazon.co.jp/dp/B000000000" |};
               {| label := "公式サイト"; url := "https://example.com/harbor" |} ];
           isCommision := true |};
        {| id := 1; date := EmptyString; title := "Night Train";
           description := EmptyString; imageUrl := EmptyString; tags := [];
           links := [ {| label := "DLsite"; url := "https://www.dlsite.com/work/1" |} ];
           isCommision := false |};
        {| id := 2; date := "spring"; title := "2023-12-24T00:00:00.000+09:00";
           description := "7"; imageUrl := "true"; tags := ["12"];
           links := [ {| label := "Amazon"; url := "5" |} ];
           isCommision := false |} ].
Proof. vm_compute. reflexivity. Qed.

Lemma items_ids_witness :
  List.map id (items [harbor; blank; falseLink]) = [0; 1]
  /\ items [harbor; blank; falseLink] = items [harbor; falseLink].
Proof.
  destruct (items_ids [harbor; blank; falseLink]) as (Hids & _ & _ & Hdrop).
  split; [exact Hids|].
  apply (Hdrop [harbor] blank [falseLink]); [reflexivity|right; reflexivity].
Defined.

(** C2 as stated fails: the row [zeroTitle] passes the filter, since 0 is
    neither [undefined] nor the empty string, and its item has the empty
    title, since [0 || ''] is the empty string. *)
Lemma items_title_counterexample :
  titlePresent zeroTitle = true
  /\ at_ zeroTitle (COL !! "title") = number 0
  /\ List.map title (items [zeroTitle]) = [EmptyString]
  /\ ~ (forall (values : list (list JSValue)) (item : ApiResponseItem),
           In item (items values) -> title item <> EmptyString).
Proof.
  split; [reflexivity|]. split; [reflexivity|]. split; [reflexivity|].
  intros Hall. apply (Hall [zeroTitle] (itemOf zeroTitle 0)); [left|]; reflexivity.
Qed.

Lemma items_title_witness :
  In harbor (List.filter titlePresent [harbor; blank])
  /\ (title (itemOf harbor 0) <> EmptyString
      <-> truthy (at_ harbor (COL !! "title")) = true).
Proof.
  destruct (items_title [harbor; blank]) as (Hkept & Htitle). split.
  - apply Hkept. split; [left; reflexivity|]. split; discriminate.
  - destruct (Htitle 0 (itemOf harbor 0) eq_refl) as (row & Hrow & _ & Hiff).
    change (Some harbor = Some row) in Hrow. injection Hrow as <-.
    exact Hiff.
Defined.

(** C3 as stated fails: in the row [falseLink] the cell read for Amazon
    holds [false], which is not empty, and the links have no Amazon
    entry. *)
Lemma links_counterexample :
  titlePresent falseLink = true
  /\ at_ falseLink (COL !! "Amazon") = VBoolean false
  /\ links (itemOf falseLink 0)
     = [{| label := "DLsite"; url := "https://www.dlsite.com/work/1" |}]
  /\ ~ (forall (row : list JSValue) (key : string),
           In key LINK_KEYS ->
           at_ row (COL !! key) <> VUndefined ->
           at_ row (COL !! key) <> VString EmptyString ->
           exists link, In link (links (itemOf row 0)) /\ label link = key).
Proof.
  split; [reflexivity|]. split; [reflexivity|]. split; [reflexivity|].
  intros Hall.
  destruct (Hall falseLink "Amazon") as (link & Hin & Hlabel);
    [left; reflexivity|discriminate|discriminate|].
  destruct Hin as [<-|[]]. discriminate Hlabel.
Qed.

Lemma links_spec_witness :
  links (itemOf harbor 0)
  = [ {| label := "Amazon"; url := "https://www.amazon.co.jp/dp/B000000000" |};
      {| label := "公式サイト"; url := "https://example.com/harbor" |} ]
  /\ Forall (fun link => url link <> EmptyString) (links (itemOf harbor 0)).
Proof.
  destruct (links_spec harbor 0) as (Heq & _ & _ & Hall).
  split; [exact Heq|exact Hall].
Defined.

Lemma parseBoolean_spec_witness :
  parseBoolean (number 0) = false
  /\ parseBoolean (VString " Yes ") = true
  /\ parseBoolean (VString "　TRUE　") = true
  /\ parseBoolean (number 2) = false.
Proof.
  destruct parseBoolean_spec as (Hgen & _ & _ & _ & _ & Hzero & _).
  split; [apply Hzero; reflexivity|]. split; [|split].
  - apply (Hgen (VString " Yes ")); [discriminate|reflexivity|].
    right; right; reflexivity.
  - apply (Hgen (VString "　TRUE　")); [discriminate|reflexivity|].
    left; reflexivity.
  - destruct (Hgen (number 2)) as (_ & _ & Hiff).
    specialize (Hiff ltac:(discriminate) eq_refl). cbn zeta in Hiff.
    destruct (parseBoolean (number 2)); [|reflexivity].
    destruct (proj1 Hiff eq_refl) as [E|[E|E]]; vm_compute in E; discriminate E.
Defined.

Lemma parseTags_spec_witness :
  parseTags (number 0) = []
  /\ parseTags (number 12) = ["12"]
  /\ Forall (fun tag => tag <> EmptyString /\ JSString.trim tag = tag)
       (parseTags (VString " a , ,b"))
  /\ parseTags (VString " a , ,b") = ["a"; "b"]
  /\ parseTags (VString "a,　,b　") = ["a"; "b"].
Proof.
  destruct parseTags_spec as (Hgen & _).
  split; [apply (Hgen (number 0)); reflexivity|].
  split; [|split; [|split]].
  4: { destruct (Hgen (VString "a,　,b　")) as (_ & Htruthy).
       destruct (Htruthy eq_refl) as (_ & _ & Heq & _). exact Heq. }
  - destruct (Hgen (number 12)) as (_ & Htruthy).
    destruct (Htruthy eq_refl) as (_ & _ & Heq & _). exact Heq.
  - destruct (Hgen (VString " a , ,b")) as (_ & Htruthy).
    destruct (Htruthy eq_refl) as (_ & _ & _ & Hall). exact Hall.
  - destruct (Hgen (VString " a , ,b")) as (_ & Htruthy).
    destruct (Htruthy eq_refl) as (_ & _ & Heq & _). exact Heq.
Defined.

Lemma doGet_catches_witness :
  fst (doGet unconfigured None [])
  = Returned
      {| outMimeType := JSON;
         content :=
           JSON_stringify
             (OfError {| error := true;
                         message := "Internal server error: Error: Sheet " +:+ JSString.dquote
                                    +:+ "null" +:+ JSString.dquote +:+ " not found";
                         statusCode := 500 |}) |}
  /\ fst (doGet unconfigured (query "action" "images") [])
     = Returned
         {| outMimeType := JSON;
            content :=
              JSON_stringify
                (OfError {| error := true;
                            message := "Internal server error: Error: DRIVE_FOLDER_ID is not set in script properties";
                            statusCode := 500 |}) |}.
Proof.
  destruct (doGet_catches unconfigured) as (_ & Hsheet & Hfolder). split.
  - apply (Hsheet None [] {| getSheetByName := fun n =>
                               if decide (n = Some "Portfolio") then Some portfolio else None |});
      [discriminate|reflexivity|reflexivity].
  - apply (Hfolder (query "action" "images") []); [reflexivity|left; reflexivity].
Defined.

Lemma doGet_action_only_witness :
  doGet world (query "id" "3") = doGet world None
  /\ doGet world (query "action" "list") = doGet world (query "action" "items")
  /\ doGet world (query "action" "images") []
     = (Returned {| outMimeType := JSON;
                    content := JSON_stringify (OfImages (while_hasNext [cover; notes; photo] [])) |},
        [])
  /\ doGet world (query "action" "items") []
     = (Returned {| outMimeType := JSON;
                    content := JSON_stringify (OfItems (items (dataValues portfolio))) |},
        []).
Proof.
  destruct (doGet_action_only world) as (Hsame & _ & Hother & _ & Himages & Hitems).
  split; [|split; [|split]].
  - apply (Hother (query "id" "3") []). discriminate.
  - apply Hsame. split; discriminate.
  - apply (Himages (query "action" "images") []). reflexivity.
  - apply (Hitems (query "action" "items") []). discriminate.
Defined.

Lemma getDriveImages_allow_list_witness :
  getDriveImages world []
  = (Returned (while_hasNext [cover; notes; photo] []), [])
  /\ imageOf photo ∈ while_hasNext [cover; notes; photo] []
  /\ while_hasNext [cover; notes; photo] [] = while_hasNext [cover; photo] [].
Proof.
  destruct getDriveImages_allow_list as (Hloop & Hrun). split; [|split].
  - apply (Hrun world "folder-1" pictures []); [reflexivity|discriminate|reflexivity].
  - destruct (Hloop [cover; notes; photo]) as (_ & Hkept & _).
    apply (Hkept photo); [|right; left; reflexivity].
    apply list_elem_of_In. right. right. left. reflexivity.
  - destruct (Hloop [cover; notes; photo]) as (_ & _ & _ & Hskip).
    apply (Hskip [cover] notes [photo]); [reflexivity|].
    intros Hin. apply (proj2 (includes_elem_of _ _)) in Hin. discriminate Hin.
Defined.

Lemma getPortfolioItems_all_or_error_witness :
  getPortfolioItems world [] = (Returned (items (dataValues portfolio)), [])
  /\ length (items (dataValues portfolio)) = 3
  /\ Dyn.getPortfolioItems world []
     = (Returned (List.map asDynamic (items (dataValues portfolio))), []).
Proof.
  destruct (getPortfolioItems_all_or_error world [])
    as (_ & _ & _ & _ & _ & Hdyn & Hfound & _).
  destruct (Hfound {| getSheetByName := fun n =>
                        if decide (n = Some "Portfolio") then Some portfolio else None |}
              portfolio eq_refl eq_refl) as (Hrun & Hlen & _).
  split; [exact Hrun|]. split; [exact Hlen|].
  rewrite Hdyn, Hrun. reflexivity.
Defined.


End Evaluation.

(** * Further properties *)

(** ** More on strings *)
Module JSStringLaws.
Import JSString JSStringFacts.

Lemma lowerChar_idem c : lowerChar (lowerChar c) = lowerChar c.
Proof. destruct c as [[] [] [] [] [] [] [] []]; reflexivity. Qed.

Lemma isWhiteSpace_lowerChar c : isWhiteSpace (lowerChar c) = isWhiteSpace c.
Proof. destruct c as [[] [] [] [] [] [] [] []]; reflexivity. Qed.

(** Lower-casing changes no byte of 128 or more and makes none. *)
Lemma lowerChar_low_or_same c :
  Ascii.eqb (lowerChar c) c
  || (Nat.ltb (nat_of_ascii c) 128 && Nat.ltb (nat_of_ascii (lowerChar c)) 128) = true.
Proof. destruct c as [[] [] [] [] [] [] [] []]; reflexivity. Qed.

Lemma lowerChar_high c :
  128 <= nat_of_ascii c \/ 128 <= nat_of_ascii (lowerChar c) -> lowerChar c = c.
Proof.
  intros H. pose proof (lowerChar_low_or_same c) as L.
  apply orb_true_iff in L as [L|L]; [apply Ascii.eqb_eq, L|].
  apply andb_true_iff in L as [L1 L2].
  apply Nat.ltb_lt in L1. apply Nat.ltb_lt in L2. lia.
Qed.

Lemma isWhiteSpace2_high c1 c2 :
  isWhiteSpace2 c1 c2 = true -> 128 <= nat_of_ascii c1 /\ 128 <= nat_of_ascii c2.
Proof.
  unfold isWhiteSpace2. rewrite andb_true_iff, !Nat.eqb_eq. lia.
Qed.

Lemma isWhiteSpace3_high c1 c2 c3 :
  isWhiteSpace3 c1 c2 c3 = true ->
  128 <= nat_of_ascii c1 /\ 128 <= nat_of_ascii c2 /\ 128 <= nat_of_ascii c3.
Proof.
  unfold isWhiteSpace3. cbv zeta.
  rewrite !orb_true_iff, !andb_true_iff, !orb_true_iff, !andb_true_iff,
    !Nat.eqb_eq, !Nat.leb_le.
  lia.
Qed.

Lemma isWhiteSpace2_lowerChar c1 c2 :
  isWhiteSpace2 (lowerChar c1) (lowerChar c2) = isWhiteSpace2 c1 c2.
Proof.
  destruct (isWhiteSpace2 (lowerChar c1) (lowerChar c2)) eqn:E1;
    destruct (isWhiteSpace2 c1 c2) eqn:E2; try reflexivity.
  - apply isWhiteSpace2_high in E1 as H. destruct H as [H1 H2].
    rewrite (lowerChar_high c1), (lowerChar_high c2) in E1 by auto. congruence.
  - apply isWhiteSpace2_high in E2 as H. destruct H as [H1 H2].
    rewrite (lowerChar_high c1), (lowerChar_high c2) in E1 by auto. congruence.
Qed.

Lemma isWhiteSpace3_lowerChar c1 c2 c3 :
  isWhiteSpace3 (lowerChar c1) (lowerChar c2) (lowerChar c3) = isWhiteSpace3 c1 c2 c3.
Proof.
  destruct (isWhiteSpace3 (lowerChar c1) (lowerChar c2) (lowerChar c3)) eqn:E1;
    destruct (isWhiteSpace3 c1 c2 c3) eqn:E2; try reflexivity.
  - apply isWhiteSpace3_high in E1 as H. destruct H as (H1 & H2 & H3).
    rewrite (lowerChar_high c1), (lowerChar_high c2), (lowerChar_high c3) in E1 by auto.
    congruence.
  - apply isWhiteSpace3_high in E2 as H. destruct H as (H1 & H2 & H3).
    rewrite (lowerChar_high c1), (lowerChar_high c2), (lowerChar_high c3) in E1 by auto.
    congruence.
Qed.

Lemma toLowerCase_idem s : toLowerCase (toLowerCase s) = toLowerCase s.
Proof. induction s as [|c r IH]; simpl; [reflexivity|]. rewrite lowerChar_idem, IH. reflexivity. Qed.

Lemma toLowerCase_app a b : toLowerCase (a +:+ b) = toLowerCase a +:+ toLowerCase b.
Proof.
  induction a as [|x a IH]; [reflexivity|].
  rewrite app_cons. cbn [toLowerCase]. rewrite IH, app_cons. reflexivity.
Qed.

Lemma reverse_toLowerCase s : reverse (toLowerCase s) = toLowerCase (reverse s).
Proof.
  induction s as [|c r IH]; [reflexivity|].
  cbn [toLowerCase reverse]. rewrite IH, toLowerCase_app. reflexivity.
Qed.

(** Dropping commutes with lower-casing when lower-casing changes no run
    that is dropped. *)
Lemma dropSpaces_toLowerCase one two three s :
  (forall c, one (lowerChar c) = one c) ->
  (forall c1 c2, two (lowerChar c1) (lowerChar c2) = two c1 c2) ->
  (forall c1 c2 c3, three (lowerChar c1) (lowerChar c2) (lowerChar c3) = three c1 c2 c3) ->
  dropSpaces one two three (toLowerCase s) = toLowerCase (dropSpaces one two three s).
Proof.
  intros H1 H2 H3. induction s as [s IH] using string_length_ind.
  destruct s as [|c1 r1]; [reflexivity|].
  cbn [toLowerCase dropSpaces]. rewrite H1. destruct (one c1); [apply IH; cbn; lia|].
  destruct r1 as [|c2 r2]; [reflexivity|].
  cbn [toLowerCase]. rewrite H2. destruct (two c1 c2); [apply IH; cbn; lia|].
  destruct r2 as [|c3 r3]; [reflexivity|].
  cbn [toLowerCase]. rewrite H3. destruct (three c1 c2 c3); [apply IH; cbn; lia|].
  reflexivity.
Qed.

Lemma trimStart_toLowerCase s : trimStart (toLowerCase s) = toLowerCase (trimStart s).
Proof.
  apply dropSpaces_toLowerCase;
    [apply isWhiteSpace_lowerChar|apply isWhiteSpace2_lowerChar|apply isWhiteSpace3_lowerChar].
Qed.

Lemma trimEnd_toLowerCase s : trimEnd (toLowerCase s) = toLowerCase (trimEnd s).
Proof.
  unfold trimEnd. rewrite reverse_toLowerCase, dropSpaces_toLowerCase.
  - apply reverse_toLowerCase.
  - apply isWhiteSpace_lowerChar.
  - intros c2 c1. apply isWhiteSpace2_lowerChar.
  - intros c3 c2 c1. apply isWhiteSpace3_lowerChar.
Qed.

Lemma trim_toLowerCase s : trim (toLowerCase s) = toLowerCase (trim s).
Proof. unfold trim. rewrite trimStart_toLowerCase. apply trimEnd_toLowerCase. Qed.

Lemma hasChar_app c a b : hasChar c (a +:+ b) = hasChar c a || hasChar c b.
Proof.
  induction a as [|x a IH]; [reflexivity|].
  rewrite app_cons. cbn [hasChar]. rewrite IH, orb_assoc. reflexivity.
Qed.

Lemma split_without_sep sep s : hasChar sep s = false -> split sep s = [s].
Proof.
  induction s as [|c r IH]; simpl; [reflexivity|].
  intros H. apply orb_false_iff in H as [Hc Hr]. rewrite Hc, (IH Hr). reflexivity.
Qed.

Lemma split_app_sep sep s r :
  hasChar sep s = false -> split sep (s +:+ String sep r) = s :: split sep r.
Proof.
  induction s as [|c s IH].
  - intros _. rewrite app_empty. cbn [split]. rewrite Ascii.eqb_refl. reflexivity.
  - intros H. cbn [hasChar] in H. apply orb_false_iff in H as [Hc Hs].
    rewrite app_cons. cbn [split]. rewrite Hc, (IH Hs). reflexivity.
Qed.

Lemma hasChar_trimStart c s : hasChar c s = false -> hasChar c (trimStart s) = false.
Proof.
  intros H. destruct (trimStart_suffix s) as [front E]. rewrite E, hasChar_app in H.
  apply orb_false_iff in H as [_ H]. exact H.
Qed.

Lemma hasChar_trimEnd c s : hasChar c s = false -> hasChar c (trimEnd s) = false.
Proof.
  intros H. destruct (trimEnd_prefix s) as [back E]. rewrite E, hasChar_app in H.
  apply orb_false_iff in H as [H _]. exact H.
Qed.

Lemma hasChar_trim c s : hasChar c s = false -> hasChar c (trim s) = false.
Proof. intros H. apply hasChar_trimEnd, hasChar_trimStart, H. Qed.

(** White space in front is trimmed away. *)
Lemma trimStart_pad pad s : trimStart pad = EmptyString -> trimStart (pad +:+ s) = trimStart s.
Proof. apply dropSpaces_front. Qed.

Lemma trim_pad pad s : trimStart pad = EmptyString -> trim (pad +:+ s) = trim s.
Proof. intros H. unfold trim. rewrite (trimStart_pad _ _ H). reflexivity. Qed.

End JSStringLaws.

Section MoreProperties.
Context {R : Runtime}.
Import JSString JSStringFacts JSStringLaws.

(** ** [parseBoolean] and [parseTags] on strings *)

Lemma parseBoolean_string (s : string) :
  parseBoolean (VString s) = isTrueWord (trim (toLowerCase s)).
Proof. destruct s; reflexivity. Qed.

(** X1.  On a string, [parseBoolean] looks at neither the case of the
    letters nor the white space around the text: trimming the string or
    lower-casing it first gives the same answer. *)
Theorem parseBoolean_case_and_space (s : string) :
  parseBoolean (VString (trim s)) = parseBoolean (VString s)
  /\ parseBoolean (VString (toLowerCase s)) = parseBoolean (VString s)
  /\ forall pad, trimStart pad = EmptyString ->
       parseBoolean (VString (pad +:+ s)) = parseBoolean (VString s).
Proof.
  rewrite !parseBoolean_string. split; [|split].
  - rewrite <- trim_toLowerCase, trim_idem, trim_toLowerCase. reflexivity.
  - rewrite toLowerCase_idem. reflexivity.
  - intros pad Hpad. rewrite parseBoolean_string.
    rewrite (trim_toLowerCase (pad +:+ s)), (trim_pad _ _ Hpad), <- trim_toLowerCase.
    reflexivity.
Qed.

Lemma parseTags_string (s : string) :
  parseTags (VString s)
  = List.filter nonEmpty (List.map trim (split "," s)).
Proof. destruct s; reflexivity. Qed.

Lemma parsed_pieces_join (pad : string) (tags : list string) :
  trimStart pad = EmptyString ->
  hasChar "," pad = false ->
  Forall (fun tag => tag <> EmptyString /\ trim tag = tag /\ hasChar "," tag = false) tags ->
  forall front,
    trimStart front = EmptyString ->
    hasChar "," front = false ->
    tags <> [] ->
    List.filter nonEmpty
      (List.map trim (split "," (front +:+ String.concat (String "," pad) tags)))
    = tags.
Proof.
  intros Hpad Hcomma Hall. induction Hall as [|tag rest (Hne & Htrim & Htag) Hrest IH];
    intros front Hfront Hfc Hnil; [contradiction|].
  assert (trim (front +:+ tag) = tag) as Hkeep by (rewrite (trim_pad _ _ Hfront); exact Htrim).
  assert (hasChar "," (front +:+ tag) = false) as Hfree
      by (rewrite hasChar_app, Hfc, Htag; reflexivity).
  destruct rest as [|next rest].
  - cbn [String.concat]. rewrite (split_without_sep _ _ Hfree).
    cbn [List.map List.filter]. rewrite Hkeep.
    rewrite (proj2 (nonEmpty_true tag) Hne). reflexivity.
  - change (String.concat (String "," pad) (tag :: next :: rest))
      with (tag +:+ String "," (pad +:+ String.concat (String "," pad) (next :: rest))).
    rewrite <- string_app_assoc, (split_app_sep _ _ _ Hfree).
    cbn [List.map List.filter]. rewrite Hkeep.
    rewrite (proj2 (nonEmpty_true tag) Hne). f_equal.
    apply IH; [exact Hpad|exact Hcomma|discriminate].
Qed.

Lemma parseTags_well_formed (tagsString : JSValue) :
  Forall (fun tag => tag <> EmptyString /\ trim tag = tag /\ hasChar "," tag = false)
    (parseTags tagsString).
Proof.
  unfold parseTags. destruct (truthy tagsString); cbn [negb]; [|constructor].
  unfold JSArray.filter, JSArray.map. apply List.Forall_forall. intros tag Hin.
  apply List.filter_In in Hin as [Hin Hne].
  apply List.in_map_iff in Hin as (piece & <- & Hpiece).
  split; [apply nonEmpty_true, Hne|]. split; [apply trim_idem|].
  apply hasChar_trim.
  pose proof (split_no_sep "," (ToString tagsString)) as Hall.
  rewrite List.Forall_forall in Hall. apply Hall, Hpiece.
Qed.

Lemma parseTags_joined (pad : string) (tags : list string) :
  trimStart pad = EmptyString ->
  hasChar "," pad = false ->
  Forall (fun tag => tag <> EmptyString /\ trim tag = tag /\ hasChar "," tag = false) tags ->
  parseTags (VString (String.concat (String "," pad) tags)) = tags.
Proof.
  intros Hpad Hcomma Hall. rewrite parseTags_string.
  destruct tags as [|tag rest]; [reflexivity|].
  rewrite <- (app_empty (String.concat _ _)).
  apply (parsed_pieces_join pad (tag :: rest) Hpad Hcomma Hall EmptyString);
    [reflexivity|reflexivity|discriminate].
Qed.

(** X2.  Tags that are non-empty, trimmed and free of commas come back
    unchanged when they are joined with a comma, or with a comma followed
    by white space, and parsed. *)
Theorem parseTags_join (pad : string) (tags : list string) :
  trimStart pad = EmptyString ->
  hasChar "," pad = false ->
  Forall (fun tag => tag <> EmptyString /\ trim tag = tag /\ hasChar "," tag = false) tags ->
  parseTags (VString (String.concat (String "," pad) tags)) = tags
  /\ parseTags (VString (pad +:+ String.concat (String "," pad) tags)) = tags.
Proof.
  intros Hpad Hcomma Hall. split; [apply parseTags_joined; assumption|].
  rewrite parseTags_string. destruct tags as [|tag rest].
  - cbn [String.concat].
    assert (hasChar "," (pad +:+ EmptyString) = false) as Hfree
        by (rewrite hasChar_app, Hcomma; reflexivity).
    rewrite (split_without_sep _ _ Hfree). cbn [List.map List.filter].
    rewrite (trim_pad _ _ Hpad). reflexivity.
  - apply (parsed_pieces_join pad (tag :: rest) Hpad Hcomma Hall pad Hpad Hcomma).
    discriminate.
Qed.

(** X3.  Every tag [parseTags] returns is free of commas, and joining the
    tags with commas and parsing the result gives the same tags again. *)
Theorem parseTags_idempotent (tagsString : JSValue) :
  Forall (fun tag => hasChar "," tag = false) (parseTags tagsString)
  /\ parseTags (VString (join "," (parseTags tagsString))) = parseTags tagsString.
Proof.
  pose proof (parseTags_well_formed tagsString) as Hall. split.
  - eapply List.Forall_impl; [|exact Hall]. intros tag (_ & _ & H). exact H.
  - unfold join.
    apply (parseTags_joined EmptyString (parseTags tagsString));
      [reflexivity|reflexivity|exact Hall].
Qed.

(** ** [formatDate] and [createErrorResponse] *)

(** X4.  [formatDate] formats a [Date] with [Utilities.formatDate] in the
    Asia/Tokyo zone; every other value gets the coercion of the text
    fields, [String(value || '')], so a string passes unchanged and the
    result is empty exactly when the value is falsy. *)
Theorem formatDate_cases `{!RuntimeLaws R} (dateValue : JSValue) :
  (forall d, dateValue = VDate d ->
     formatDate dateValue = Utilities_formatDate d "Asia/Tokyo" "yyyy-MM-dd")
  /\ ((forall d, dateValue <> VDate d) ->
      formatDate dateValue = ToString (orEmpty dateValue)
      /\ (formatDate dateValue = EmptyString <-> truthy dateValue = false))
  /\ (forall s, dateValue = VString s -> formatDate dateValue = s).
Proof.
  split; [|split].
  - intros d ->. reflexivity.
  - intros Hd.
    assert (formatDate dateValue = ToString (orEmpty dateValue)) as Heq.
    { unfold formatDate, orEmpty. destruct (truthy dateValue) eqn:E; cbn [negb]; [|reflexivity].
      destruct dateValue as [| |b|n|s|d]; try reflexivity. destruct (Hd d); reflexivity. }
    split; [exact Heq|]. rewrite Heq.
    pose proof (nonEmpty_orEmpty dateValue) as Hne.
    destruct (truthy dateValue).
    + apply nonEmpty_true in Hne. split; [contradiction|discriminate].
    + split; [reflexivity|]. intros _.
      destruct (ToString (orEmpty dateValue)); [reflexivity|discriminate Hne].
  - intros s ->. destruct s; reflexivity.
Qed.

(** X5.  The envelope of [createErrorResponse] is JSON, has [error] set
    and carries the message as given; its status code is never 0: an
    omitted code and the code 0 become 500, any other code is kept. *)
Theorem createErrorResponse_status (text : string) (code : option nat) :
  exists body,
    createErrorResponse text code
    = {| outMimeType := JSON; content := JSON_stringify (OfError body) |}
    /\ error body = true
    /\ message body = text
    /\ statusCode body <> 0
    /\ (code = None \/ code = Some 0 -> statusCode body = 500)
    /\ (forall c, code = Some c -> c <> 0 -> statusCode body = c).
Proof.
  eexists. split; [reflexivity|]. cbn [error message statusCode].
  split; [reflexivity|]. split; [reflexivity|].
  destruct code as [[|c]|]; cbn [orDefault]; (split; [discriminate|]); split;
    try (intros _; reflexivity); try (intros [H|H]; discriminate H).
  - intros c' [= <-] Hc. contradiction.
  - intros c' [= <-] _. reflexivity.
  - intros c' H. discriminate H.
Qed.

(** ** Which cells the reader looks at *)

Lemma titlePresent_first (c c' : JSValue) (cells : list JSValue) :
  titlePresent (c :: cells) = titlePresent (c' :: cells).
Proof. reflexivity. Qed.

Lemma itemOf_first (c c' : JSValue) (cells : list JSValue) (index : nat) :
  itemOf (c :: cells) index = itemOf (c' :: cells) index.
Proof. reflexivity. Qed.

Lemma items_offset (v1 v2 : list (list JSValue)) :
  Forall2 (fun r1 r2 => titlePresent r1 = titlePresent r2
                        /\ forall k, itemOf r1 k = itemOf r2 k) v1 v2 ->
  forall n,
    imap (fun i row => itemOf row (n + i)) (List.filter titlePresent v1)
    = imap (fun i row => itemOf row (n + i)) (List.filter titlePresent v2).
Proof.
  induction 1 as [|r1 r2 v1 v2 [Hp Hi] _ IH]; intros n; [reflexivity|].
  cbn [List.filter]. rewrite <- Hp. destruct (titlePresent r1).
  - rewrite !imap_cons. f_equal; [apply Hi|].
    rewrite (imap_ext _ (fun i row => itemOf row (S n + i)) (List.filter titlePresent v1)),
      (imap_ext (_ ∘ S) (fun i row => itemOf row (S n + i)) (List.filter titlePresent v2)).
    + apply IH.
    + intros i row _. cbn. f_equal. lia.
    + intros i row _. cbn. f_equal. lia.
  - apply IH.
Qed.

Lemma items_pointwise (v1 v2 : list (list JSValue)) :
  Forall2 (fun r1 r2 => titlePresent r1 = titlePresent r2
                        /\ forall k, itemOf r1 k = itemOf r2 k) v1 v2 ->
  items v1 = items v2.
Proof. intros H. exact (items_offset v1 v2 H 0). Qed.

Lemma getValues_lookup (sheet : Sheet) (row column numRows numColumns j : nat)
    (cells : list JSValue) :
  getValues sheet row column numRows numColumns !! j = Some cells ->
  j < numRows
  /\ cells = List.map (fun c => cellAt sheet (row + j) c) (seq column numColumns).
Proof.
  unfold getValues. intros H.
  change (List.map ?f ?l) with (f <$> l) in H at 1.
  rewrite list_lookup_fmap in H.
  destruct (seq row numRows !! j) as [r|] eqn:E; [|discriminate].
  apply lookup_seq in E as [-> Hj]. injection H as <-. split; [exact Hj|reflexivity].
Qed.

(** X6.  The items read from a sheet depend only on its last row and on
    the cells of rows 2 to the last, columns 2 to 13: the heading row, the
    first column and the columns after the thirteenth never change the
    result. *)
Theorem items_read_columns (sheet1 sheet2 : Sheet) :
  getLastRow sheet1 = getLastRow sheet2 ->
  (forall r c, 2 <= r <= getLastRow sheet1 -> 2 <= c <= 13 ->
     cellAt sheet1 r c = cellAt sheet2 r c) ->
  items (dataValues sheet1) = items (dataValues sheet2).
Proof.
  intros Hlast Hcells. apply items_pointwise. unfold dataValues. rewrite <- Hlast.
  destruct (Nat.leb_spec (getLastRow sheet1) 1) as [_|Hrows]; [constructor|].
  unfold getValues. apply Forall2_fmap, Forall_Forall2_diag, Forall_forall.
  intros r Hr. apply list_elem_of_In, List.in_seq in Hr.
  change (seq 1 COLUMN_COUNT) with (1 :: seq 2 12). cbn [List.map].
  assert (List.map (fun c => cellAt sheet1 r c) (seq 2 12)
          = List.map (fun c => cellAt sheet2 r c) (seq 2 12)) as ->.
  { apply List.map_ext_in. intros c Hc. apply List.in_seq in Hc. apply Hcells; lia. }
  split; [apply titlePresent_first|]. intros k. apply itemOf_first.
Qed.

(** ** Ids and the rows they come from *)

Lemma filter_lookup_rank {A} (p : A -> bool) (l : list A) (j : nat) (x : A) :
  l !! j = Some x -> p x = true ->
  List.filter p l !! length (List.filter p (take j l)) = Some x.
Proof.
  intros Hj Hp.
  assert (List.filter p l
          = (List.filter p (take j l) ++ x :: List.filter p (drop (S j) l))%list) as ->.
  { rewrite <- (take_drop_middle l j x Hj) at 1.
    rewrite List.filter_app. cbn [List.filter]. rewrite Hp. reflexivity. }
  apply list_lookup_middle. reflexivity.
Qed.

Lemma filter_lookup_source {A} (p : A -> bool) (l : list A) (k : nat) (x : A) :
  List.filter p l !! k = Some x ->
  exists j, l !! j = Some x /\ p x = true /\ length (List.filter p (take j l)) = k.
Proof.
  revert k. induction l as [|a l IH]; intros k; cbn [List.filter]; [discriminate|].
  destruct (p a) eqn:Ea.
  - destruct k as [|k]; cbn.
    + intros [= <-]. exists 0. auto.
    + intros H. destruct (IH k H) as (j & Hj & Hp & Hk).
      exists (S j). cbn [take List.filter]. rewrite Ea. cbn. auto.
  - intros H. destruct (IH k H) as (j & Hj & Hp & Hk).
    exists (S j). cbn [take List.filter]. rewrite Ea. auto.
Qed.

Lemma length_filter_take_le {A} (p : A -> bool) (l : list A) (j : nat) :
  length (List.filter p (take j l)) <= j.
Proof.
  etransitivity; [apply List.filter_length_le|]. rewrite length_take. lia.
Qed.

(** X7.  The item with id [k] is built from the row of the grid that has
    exactly [k] retained rows above it, and every retained row gives the
    item whose id is the number of retained rows above it; so an id is
    never more than the position of its row, and there are never more
    items than rows. *)
Theorem items_source_row (values : list (list JSValue)) :
  (forall k item,
      items values !! k = Some item
      <-> exists j row,
            values !! j = Some row
            /\ titlePresent row = true
            /\ length (List.filter titlePresent (take j values)) = k
            /\ item = itemOf row k)
  /\ (forall k item,
         items values !! k = Some item ->
         exists j row, k <= j /\ values !! j = Some row /\ item = itemOf row k)
  /\ length (items values) <= length values.
Proof.
  assert (forall k item,
             items values !! k = Some item ->
             exists j row,
               values !! j = Some row
               /\ titlePresent row = true
               /\ length (List.filter titlePresent (take j values)) = k
               /\ item = itemOf row k) as Hsource.
  { intros k item. rewrite items_lookup.
    destruct (List.filter titlePresent values !! k) as [row|] eqn:E; [|discriminate].
    intros [= <-]. destruct (filter_lookup_source _ _ _ _ E) as (j & Hj & Hp & Hk).
    exists j, row. auto. }
  split; [|split].
  - intros k item. split; [apply Hsource|].
    intros (j & row & Hj & Hp & <- & ->).
    rewrite items_lookup, (filter_lookup_rank _ _ _ _ Hj Hp). reflexivity.
  - intros k item H. destruct (Hsource k item H) as (j & row & Hj & _ & <- & ->).
    exists j, row. split; [apply length_filter_take_le|]. auto.
  - rewrite items_length. apply List.filter_length_le.
Qed.

(** X8.  On a sheet, the item with id [k] is built from the thirteen cells
    of a spreadsheet row between [k + 2] and the last row, and there are
    at most [lastRow - 1] items. *)
Theorem items_sheet_row (sheet : Sheet) (k : nat) (item : ApiResponseItem) :
  items (dataValues sheet) !! k = Some item ->
  length (items (dataValues sheet)) <= getLastRow sheet - 1
  /\ exists r,
       k + 2 <= r <= getLastRow sheet
       /\ item = itemOf (List.map (fun c => cellAt sheet r c) (seq 1 13)) k.
Proof.
  intros H. rewrite items_lookup in H.
  destruct (List.filter titlePresent (dataValues sheet) !! k) as [row|] eqn:E; [|discriminate].
  injection H as <-.
  destruct (filter_lookup_source _ _ _ _ E) as (j & Hj & _ & Hk).
  pose proof (length_filter_take_le titlePresent (dataValues sheet) j) as Hle.
  unfold dataValues in *. destruct (Nat.leb_spec (getLastRow sheet) 1) as [_|Hrows];
    [discriminate|].
  split.
  - rewrite items_length. etransitivity; [apply List.filter_length_le|].
    unfold getValues. rewrite List.length_map, List.length_seq. lia.
  - apply getValues_lookup in Hj as [Hlt ->]. exists (2 + j).
    split; [lia|reflexivity].
Qed.

(** X9.  Shaping two grids one after the other is shaping them apart and
    numbering the items of the second after those of the first. *)
Theorem items_app (values1 values2 : list (list JSValue)) :
  items (values1 ++ values2)
  = (items values1
     ++ JSArray.mapi (fun row index => itemOf row (length (items values1) + index))
          (JSArray.filter titlePresent values2))%list.
Proof.
  unfold items at 1. unfold JSArray.mapi, JSArray.filter.
  rewrite List.filter_app, imap_app. f_equal.
  rewrite items_length. reflexivity.
Qed.

(** ** Links *)

Lemma getValues_width (sheet : Sheet) (row column numRows numColumns : nat)
    (cells : list JSValue) :
  In cells (getValues sheet row column numRows numColumns) -> length cells = numColumns.
Proof.
  unfold getValues. intros Hin. apply List.in_map_iff in Hin as (r & <- & _).
  rewrite List.length_map, List.length_seq. reflexivity.
Qed.

Lemma no_link_beyond_row (cells : list JSValue) (index : nat) (link : Link) :
  length cells <= 13 -> In link (links (itemOf cells index)) -> label link <> "リンク".
Proof.
  intros Hlen Hlink Hlabel. cbn [links itemOf] in Hlink.
  unfold linksOf, JSArray.filter, JSArray.map in Hlink.
  apply List.filter_In in Hlink as [Hlink Hurl].
  apply List.in_map_iff in Hlink as (key & <- & _).
  cbn [label] in Hlabel. subst key. cbn [url] in Hurl.
  change (COL !! "リンク") with (Some 13) in Hurl. cbn [at_] in Hurl.
  rewrite (proj2 (lookup_ge_None cells 13)) in Hurl by exact Hlen. discriminate Hurl.
Qed.

Lemma no_link_beyond_row_12 (cells : list JSValue) (index : nat) (link : Link) :
  length cells <= 12 ->
  In link (Part000.links (Part000.itemOf cells index)) -> label link <> "リンク".
Proof.
  intros Hlen Hlink Hlabel. cbn [Part000.links Part000.itemOf] in Hlink.
  unfold Part000.linksOf, JSArray.filter, JSArray.map in Hlink.
  apply List.filter_In in Hlink as [Hlink Hurl].
  apply List.in_map_iff in Hlink as (key & <- & _).
  cbn [label] in Hlabel. subst key. cbn [url] in Hurl.
  change (Part000.COL !! "リンク") with (Some 12) in Hurl. cbn [at_] in Hurl.
  rewrite (proj2 (lookup_ge_None cells 12)) in Hurl by exact Hlen. discriminate Hurl.
Qed.

(** X10.  In both revisions the index of the リンク column equals the
    number of columns read, one past the last cell of a row: no item
    returned by [getPortfolioItems] has a link labelled リンク. *)
Theorem getPortfolioItems_no_link_entry (w : World) (log log' : list string) :
  (forall portfolio item link,
      getPortfolioItems w log = (Returned portfolio, log') ->
      In item portfolio -> In link (links item) -> label link <> "リンク")
  /\ (forall portfolio item link,
         Part000.getPortfolioItems w log = (Returned portfolio, log') ->
         In item portfolio -> In link (Part000.links item) -> label link <> "リンク")
  /\ COL !! "リンク" = Some COLUMN_COUNT
  /\ Part000.COL !! "リンク" = Some Part000.COLUMN_COUNT.
Proof.
  split; [|split; [|split; reflexivity]].
  - intros portfolio item link Hrun Hitem.
    rewrite getPortfolioItems_run in Hrun.
    destruct (openById w (SPREADSHEET_ID w)) as [spreadsheet|]; [|discriminate].
    destruct (getSheetByName spreadsheet (SHEET_NAME w)) as [sheet|]; [|discriminate].
    injection Hrun as <- _.
    apply list_elem_of_In, list_elem_of_lookup in Hitem as [k Hk].
    rewrite items_lookup in Hk.
    destruct (List.filter titlePresent (dataValues sheet) !! k) as [row|] eqn:E; [|discriminate].
    injection Hk as <-. apply no_link_beyond_row.
    apply list_elem_of_lookup_2, list_elem_of_In, List.filter_In in E as [Hin _].
    unfold dataValues in Hin. destruct (Nat.leb (getLastRow sheet) 1); [destruct Hin|].
    rewrite (getValues_width _ _ _ _ _ _ Hin). reflexivity.
  - intros portfolio item link Hrun Hitem.
    unfold Part000.getPortfolioItems, mbind, GAS_bind, bind, call in Hrun.
    destruct (openById w (SPREADSHEET_ID w)) as [spreadsheet|]; [|discriminate].
    destruct (getSheetByName spreadsheet (SHEET_NAME w)) as [sheet|]; [|discriminate].
    destruct (Nat.leb (getLastRow sheet) 1).
    + injection Hrun as <- _. destruct Hitem.
    + injection Hrun as <- _.
      apply list_elem_of_In, list_elem_of_lookup in Hitem as [k Hk].
      unfold Part000.items, JSArray.mapi, JSArray.filter in Hk.
      rewrite list_lookup_imap in Hk.
      destruct (List.filter Part000.titlePresent _ !! k) as [row|] eqn:E; [|discriminate].
      injection Hk as <-. apply no_link_beyond_row_12.
      apply list_elem_of_lookup_2, list_elem_of_In, List.filter_In in E as [Hin _].
      rewrite (getValues_width _ _ _ _ _ _ Hin). reflexivity.
Qed.

(** X11.  The labels of the links of an item are a subsequence of the
    seven link keys: in the fixed order, each at most once, at most seven,
    and never with an empty url, however numbers and dates render. *)
Theorem link_labels (row : list JSValue) (index : nat) :
  List.map label (links (itemOf row index)) `sublist_of` LINK_KEYS
  /\ NoDup (List.map label (links (itemOf row index)))
  /\ length (links (itemOf row index)) <= 7
  /\ Forall (fun link => url link <> EmptyString) (links (itemOf row index)).
Proof.
  cbn [links itemOf]. unfold linksOf, JSArray.filter, JSArray.map.
  set (entry := fun key => {| label := key; url := ToString (orEmpty (at_ row (COL !! key))) |}).
  assert (forall keys,
             List.map label (List.filter (fun link => nonEmpty (url link)) (List.map entry keys))
             `sublist_of` keys) as Hsub.
  { induction keys as [|key keys IH]; cbn [List.map List.filter]; [constructor|].
    destruct (nonEmpty (url (entry key))); cbn [List.map label entry].
    - apply sublist_skip, IH.
    - apply sublist_cons, IH. }
  split; [apply Hsub|]. split; [|split].
  - eapply sublist_NoDup; [apply LINK_KEYS_NoDup|apply Hsub].
  - rewrite <- (List.length_map label). apply (sublist_length _ _ (Hsub LINK_KEYS)).
  - apply List.Forall_forall. intros link Hin.
    apply List.filter_In in Hin as [_ Hne]. apply nonEmpty_true, Hne.
Qed.

(** ** The revisions of the script *)

Lemma items_without_date_offset (values values' : list (list JSValue)) :
  Forall2 (fun row row' => exists c, row' = c :: row) values values' ->
  forall n,
    imap (fun i row => Part000.itemOf row (n + i)) (List.filter Part000.titlePresent values)
    = withoutDate <$> imap (fun i row => itemOf row (n + i)) (List.filter titlePresent values').
Proof.
  induction 1 as [|row row' values values' [c ->] _ IH]; intros n; [reflexivity|].
  cbn [List.filter].
  change (titlePresent (c :: row)) with (Part000.titlePresent row).
  destruct (Part000.titlePresent row).
  - rewrite !imap_cons, fmap_cons. f_equal.
    rewrite (imap_ext _ (fun i r => Part000.itemOf r (S n + i))
               (List.filter Part000.titlePresent values)),
      (imap_ext (_ ∘ S) (fun i r => itemOf r (S n + i)) (List.filter titlePresent values')).
    + apply IH.
    + intros i r _. cbn. f_equal. lia.
    + intros i r _. cbn. f_equal. lia.
  - apply IH.
Qed.

(** X12.  The revision with the date column shapes a grid whose rows have
    one more cell in front exactly as the revision before it shapes the
    grid without that cell, up to the [date] field; and the same holds for
    two sheets of which one has one more column in front. *)
Theorem date_column_inserted :
  (forall values values' : list (list JSValue),
      Forall2 (fun row row' => exists c, row' = c :: row) values values' ->
      Part000.items values = withoutDate <$> items values')
  /\ (forall (w w' : World) (log : list string) spreadsheet spreadsheet' sheet sheet',
         openById w (SPREADSHEET_ID w) = Returned spreadsheet ->
         openById w' (SPREADSHEET_ID w') = Returned spreadsheet' ->
         getSheetByName spreadsheet (SHEET_NAME w) = Some sheet ->
         getSheetByName spreadsheet' (SHEET_NAME w') = Some sheet' ->
         getLastRow sheet' = getLastRow sheet ->
         (forall r c, cellAt sheet' r (S c) = cellAt sheet r c) ->
         exists portfolio',
           getPortfolioItems w' log = (Returned portfolio', log)
           /\ Part000.getPortfolioItems w log = (Returned (withoutDate <$> portfolio'), log)).
Proof.
  assert (forall values values' : list (list JSValue),
             Forall2 (fun row row' => exists c, row' = c :: row) values values' ->
             Part000.items values = withoutDate <$> items values') as Hgrid.
  { intros values values' H. exact (items_without_date_offset values values' H 0). }
  split; [exact Hgrid|].
  intros w w' log spreadsheet spreadsheet' sheet sheet' Hopen Hopen' Hsheet Hsheet' Hlast Hcells.
  exists (items (dataValues sheet')). split.
  - rewrite getPortfolioItems_run, Hopen', Hsheet'. reflexivity.
  - unfold Part000.getPortfolioItems, mbind, GAS_bind, bind, call.
    rewrite Hopen, Hsheet. unfold dataValues. rewrite Hlast.
    destruct (Nat.leb (getLastRow sheet) 1); [reflexivity|].
    unfold mret, GAS_ret, ret. f_equal. f_equal. apply Hgrid.
    unfold getValues. apply Forall2_fmap, Forall_Forall2_diag, Forall_forall.
    intros r _. exists (cellAt sheet' r 1).
    change (seq 1 COLUMN_COUNT) with (1 :: List.map S (seq 1 Part000.COLUMN_COUNT)).
    cbn [List.map]. f_equal. rewrite List.map_map. apply List.map_ext. intros c. apply Hcells.
Qed.

(** X13.  The revision with the [images] action answers every request
    that does not ask for the images exactly as the revision before it
    answers any request, the same log lines included. *)
Theorem earlier_doGet_agrees (w : World) (e e' : option Event) (log : list string) :
  actionOf e <> "images" ->
  doGet w e log = Earlier.doGet w e' log.
Proof.
  intros Ha. rewrite doGet_run, (dispatch_other w _ Ha), dispatch_items.
  unfold Earlier.doGet, try_catch, mbind, GAS_bind, bind.
  destruct (getPortfolioItems w log) as [[portfolio|error] log']; reflexivity.
Qed.

(** ** The image loop *)

(** X14.  The loop only appends: the images collected before stay in
    front, in place; collecting over two listings one after the other is
    collecting over their concatenation; and it never gives more records
    than there are files. *)
Theorem while_hasNext_appends (files1 files2 : list DriveFile) (images : list ImageData) :
  while_hasNext files1 images = (images ++ while_hasNext files1 [])%list
  /\ while_hasNext (files1 ++ files2) images
     = while_hasNext files2 (while_hasNext files1 images)
  /\ while_hasNext (files1 ++ files2) []
     = (while_hasNext files1 [] ++ while_hasNext files2 [])%list
  /\ length (while_hasNext files1 []) <= length files1.
Proof.
  rewrite !while_hasNext_acc, !app_nil_l.
  rewrite filter_app, fmap_app, <- !app_assoc.
  split; [reflexivity|]. split; [reflexivity|]. split; [reflexivity|].
  rewrite length_fmap. apply length_filter.
Qed.

(** ** The router and its collectors *)

Lemma dispatch_log (w : World) (action : string) (log : list string) :
  snd (dispatch w action log) = log.
Proof.
  destruct (decide (action = "images")) as [->|Hne].
  - rewrite dispatch_images, getDriveImages_run.
    destruct (DRIVE_FOLDER_ID w) as [[|c folderId]|]; try reflexivity.
    destruct (getFolderById w (String c folderId)); reflexivity.
  - rewrite (dispatch_other w _ Hne), dispatch_items, getPortfolioItems_run.
    destruct (openById w (SPREADSHEET_ID w)) as [spreadsheet|]; [|reflexivity].
    destruct (getSheetByName spreadsheet (SHEET_NAME w)); reflexivity.
Qed.

(** X15.  [doGet] keeps the log lines written before it, adds none when
    it answers with a result and adds exactly one, naming the exception,
    when it answers with the error envelope; the two collectors never
    log. *)
Theorem doGet_log (w : World) (e : option Event) (log : list string) :
  snd (getPortfolioItems w log) = log
  /\ snd (getDriveImages w log) = log
  /\ match fst (dispatch w (actionOf e) log) with
     | Returned result =>
         doGet w e log
         = (Returned {| outMimeType := JSON; content := JSON_stringify result |}, log)
     | Thrown error =>
         doGet w e log
         = (Returned (createErrorResponse (errorMessage error) (Some 500)),
            (log ++ [logLine error])%list)
     end.
Proof.
  split; [|split].
  - rewrite getPortfolioItems_run.
    destruct (openById w (SPREADSHEET_ID w)) as [spreadsheet|]; [|reflexivity].
    destruct (getSheetByName spreadsheet (SHEET_NAME w)); reflexivity.
  - rewrite getDriveImages_run.
    destruct (DRIVE_FOLDER_ID w) as [[|c folderId]|]; try reflexivity.
    destruct (getFolderById w (String c folderId)); reflexivity.
  - rewrite doGet_run. pose proof (dispatch_log w (actionOf e) log) as Hlog.
    destruct (dispatch w (actionOf e) log) as [[result|error] log']; cbn in Hlog; subst log';
      reflexivity.
Qed.

(** X16.  The two actions do not touch each other's service: the answer
    to a request for the images is the same in two worlds with the same
    folder id and folder service, whatever their spreadsheets, and the
    answer to any other request is the same in two worlds with the same
    spreadsheet id, sheet name and spreadsheet, whatever their folders. *)
Theorem actions_isolated (w1 w2 : World) (e : option Event) (log : list string) :
  (actionOf e = "images" ->
   DRIVE_FOLDER_ID w1 = DRIVE_FOLDER_ID w2 ->
   (forall folderId, getFolderById w1 folderId = getFolderById w2 folderId) ->
   doGet w1 e log = doGet w2 e log)
  /\ (actionOf e <> "images" ->
      SHEET_NAME w1 = SHEET_NAME w2 ->
      openById w1 (SPREADSHEET_ID w1) = openById w2 (SPREADSHEET_ID w2) ->
      doGet w1 e log = doGet w2 e log).
Proof.
  split.
  - intros Ha Hid Hfolder. rewrite !doGet_run, Ha, !dispatch_images, !getDriveImages_run.
    rewrite Hid. destruct (DRIVE_FOLDER_ID w2) as [[|c folderId]|]; try reflexivity.
    rewrite Hfolder. reflexivity.
  - intros Ha Hname Hopen.
    rewrite !doGet_run, !(dispatch_other _ _ Ha), !dispatch_items, !getPortfolioItems_run.
    rewrite Hname, Hopen. reflexivity.
Qed.

Lemma filter_none {A} (p : A -> bool) (l : list A) :
  (forall x, In x l -> p x = false) -> List.filter p l = [].
Proof.
  induction l as [|a l IH]; intros H; [reflexivity|].
  cbn [List.filter]. rewrite (H a (or_introl eq_refl)).
  apply IH. intros x Hx. apply H. right. exact Hx.
Qed.

(** X17.  A sheet with no row below the heading, or with no row whose
    title cell is filled, gives the empty list, which [doGet] serializes
    as a result and not as an error. *)
Theorem empty_sheet (w : World) (log : list string) (spreadsheet : Spreadsheet)
    (sheet : Sheet) :
  openById w (SPREADSHEET_ID w) = Returned spreadsheet ->
  getSheetByName spreadsheet (SHEET_NAME w) = Some sheet ->
  getLastRow sheet <= 1
  \/ (forall r, 2 <= r <= getLastRow sheet ->
        cellAt sheet r 3 = VString EmptyString) ->
  getPortfolioItems w log = (Returned [], log)
  /\ forall e, actionOf e <> "images" ->
       doGet w e log
       = (Returned {| outMimeType := JSON; content := JSON_stringify (OfItems []) |}, log).
Proof.
  intros Hopen Hsheet Hempty.
  assert (items (dataValues sheet) = []) as Hnone.
  { unfold dataValues. destruct (Nat.leb_spec (getLastRow sheet) 1) as [_|Hrows]; [reflexivity|].
    destruct Hempty as [Hle|Hblank]; [lia|].
    unfold items, JSArray.mapi, JSArray.filter.
    assert (List.filter titlePresent
              (getValues sheet 2 1 (getLastRow sheet - 1) COLUMN_COUNT) = []) as ->;
      [|reflexivity].
    apply filter_none. intros row Hin. unfold getValues in Hin.
    apply List.in_map_iff in Hin as (r & <- & Hr). apply List.in_seq in Hr.
    change (seq 1 COLUMN_COUNT) with (1 :: 2 :: 3 :: seq 4 10). cbn [List.map].
    rewrite Hblank by lia. reflexivity. }
  assert (getPortfolioItems w log = (Returned [], log)) as Hrun.
  { rewrite getPortfolioItems_run, Hopen, Hsheet, Hnone. reflexivity. }
  split; [exact Hrun|]. intros e Ha.
  rewrite doGet_run, (dispatch_other w _ Ha), dispatch_items, Hrun. reflexivity.
Qed.

(** X18.  An exception of the spreadsheet or folder service reaches the
    caller unchanged: [doGet] answers with the envelope whose message is
    that exception rendered, and logs it; with the folder id unset the
    folder service is not consulted at all. *)
Theorem service_errors_surface (w : World) (e : option Event) (log : list string)
    (error : Exn) :
  (actionOf e <> "images" ->
   openById w (SPREADSHEET_ID w) = Thrown error ->
   doGet w e log
   = (Returned (createErrorResponse (errorMessage error) (Some 500)),
      (log ++ [logLine error])%list))
  /\ (forall folderId,
         actionOf e = "images" ->
         DRIVE_FOLDER_ID w = Some folderId -> folderId <> EmptyString ->
         getFolderById w folderId = Thrown error ->
         doGet w e log
         = (Returned (createErrorResponse (errorMessage error) (Some 500)),
            (log ++ [logLine error])%list))
  /\ (forall w' : World,
         actionOf e = "images" ->
         DRIVE_FOLDER_ID w = None \/ DRIVE_FOLDER_ID w = Some EmptyString ->
         DRIVE_FOLDER_ID w' = DRIVE_FOLDER_ID w ->
         doGet w e log = doGet w' e log).
Proof.
  split; [|split].
  - intros Ha Hopen.
    rewrite doGet_run, (dispatch_other w _ Ha), dispatch_items, getPortfolioItems_run, Hopen.
    reflexivity.
  - intros folderId Ha Hid Hne Hfolder.
    rewrite doGet_run, Ha, dispatch_images, getDriveImages_run, Hid.
    destruct folderId; [contradiction|]. rewrite Hfolder. reflexivity.
  - intros w' Ha Hunset Hsame.
    rewrite !doGet_run, Ha, !dispatch_images, !getDriveImages_run, Hsame.
    destruct Hunset as [-> | ->]; reflexivity.
Qed.

End MoreProperties.

(** * The further properties on the samples *)
Section MoreEvaluation.
Import Reference Samples MoreSamples.

Lemma parseBoolean_case_and_space_witness :
  parseBoolean (VString " 　Yes") = parseBoolean (VString "Yes")
  /\ parseBoolean (VString (JSString.toLowerCase "YES")) = parseBoolean (VString "YES").
Proof.
  destruct (parseBoolean_case_and_space "Yes") as (_ & _ & Hpad).
  destruct (parseBoolean_case_and_space "YES") as (_ & Hlower & _).
  split; [apply (Hpad " 　"); reflexivity|exact Hlower].
Defined.

Lemma parseTags_join_witness :
  parseTags (VString "React, TypeScript, GAS") = ["React"; "TypeScript"; "GAS"]
  /\ parseTags (VString "イラスト,　表紙") = ["イラスト"; "表紙"].
Proof.
  split.
  - apply (parseTags_join " " ["React"; "TypeScript"; "GAS"]); [reflexivity|reflexivity|].
    repeat constructor; discriminate.
  - apply (parseTags_join "　" ["イラスト"; "表紙"]); [reflexivity|reflexivity|].
    repeat constructor; discriminate.
Defined.

Lemma formatDate_cases_witness :
  formatDate (VDate march9) = "2024-03-09"
  /\ formatDate (number 2024) = "2024"
  /\ formatDate (VString "2024/03") = "2024/03".
Proof.
  split; [|split].
  - apply (proj1 (formatDate_cases (VDate march9)) march9 eq_refl).
  - destruct (formatDate_cases (number 2024)) as (_ & Hother & _).
    destruct Hother as [Heq _]; [discriminate|]. exact Heq.
  - apply (proj2 (proj2 (formatDate_cases (VString "2024/03"))) "2024/03" eq_refl).
Defined.

Lemma items_read_columns_witness :
  items (dataValues portfolio) = items (dataValues relabelled).
Proof.
  apply items_read_columns; [reflexivity|].
  intros r c Hr Hc. cbn [cellAt relabelled].
  destruct (Nat.eqb_spec r 1); [lia|]. destruct (Nat.eqb_spec c 1); [lia|].
  destruct (Nat.eqb_spec c 14); [lia|]. reflexivity.
Defined.

Lemma items_source_row_witness :
  items [harbor; blank; falseLink] !! 1 = Some (itemOf falseLink 1)
  /\ length (items [harbor; blank; falseLink]) <= 3.
Proof.
  destruct (items_source_row [harbor; blank; falseLink]) as (Hiff & _ & Hlen).
  split; [|exact Hlen].
  apply Hiff. exists 2, falseLink. repeat split; reflexivity.
Defined.

Lemma items_sheet_row_witness :
  exists r, 1 + 2 <= r <= 5
            /\ itemOf falseLink 1
               = itemOf (List.map (fun c => cellAt portfolio r c) (seq 1 13)) 1.
Proof.
  destruct (items_sheet_row portfolio 1 (itemOf falseLink 1) eq_refl) as (_ & r & Hr & Heq).
  exists r. split; [exact Hr|exact Heq].
Defined.

Lemma getPortfolioItems_no_link_entry_witness :
  Forall (fun item => Forall (fun link => label link <> "リンク") (links item))
    (items (dataValues portfolio)).
Proof.
  destruct (getPortfolioItems_no_link_entry world [] []) as (Hlater & _).
  apply List.Forall_forall. intros item Hitem.
  apply List.Forall_forall. intros link Hlink.
  apply (Hlater (items (dataValues portfolio)) item link eq_refl Hitem Hlink).
Defined.

Lemma date_column_inserted_witness :
  Part000.items [harbor12; blank12; falseLink12]
  = withoutDate <$> items [harbor; blank; falseLink]
  /\ exists portfolio',
       getPortfolioItems (worldOf portfolio) [] = (Returned portfolio', [])
       /\ Part000.getPortfolioItems (worldOf portfolio12) []
          = (Returned (withoutDate <$> portfolio'), []).
Proof.
  destruct date_column_inserted as (Hgrid & Hsheet). split.
  - apply Hgrid. repeat constructor; eexists; reflexivity.
  - apply (Hsheet (worldOf portfolio12) (worldOf portfolio) []
             {| getSheetByName := fun _ => Some portfolio12 |}
             {| getSheetByName := fun _ => Some portfolio |} portfolio12 portfolio);
      reflexivity.
Defined.

Lemma earlier_doGet_agrees_witness :
  doGet world (query "id" "3") [] = Earlier.doGet world None [].
Proof. apply earlier_doGet_agrees. discriminate. Defined.

Lemma actions_isolated_witness :
  doGet sheetless (query "action" "images") [] = doGet world (query "action" "images") []
  /\ doGet folderless (query "id" "3") [] = doGet world (query "id" "3") [].
Proof.
  split.
  - apply (proj1 (actions_isolated sheetless world (query "action" "images") []));
      reflexivity.
  - apply (proj2 (actions_isolated folderless world (query "id" "3") []));
      [discriminate|reflexivity|reflexivity].
Defined.

Lemma empty_sheet_witness :
  getPortfolioItems (worldOf headingOnly) [] = (Returned [], [])
  /\ getPortfolioItems (worldOf (sheetOfRows [heading; blank; blank])) [] = (Returned [], []).
Proof.
  split.
  - apply (empty_sheet (worldOf headingOnly) [] {| getSheetByName := fun _ => Some headingOnly |}
             headingOnly eq_refl eq_refl).
    left. cbn. lia.
  - apply (empty_sheet (worldOf (sheetOfRows [heading; blank; blank])) []
             {| getSheetByName := fun _ => Some (sheetOfRows [heading; blank; blank]) |}
             (sheetOfRows [heading; blank; blank]) eq_refl eq_refl).
    right. intros r Hr. cbn in Hr.
    assert (r = 2 \/ r = 3) as [-> | ->] by lia; reflexivity.
Defined.

Lemma service_errors_surface_witness :
  doGet sheetless None []
  = (Returned (createErrorResponse (errorMessage (notFound "Spreadsheet")) (Some 500)),
     [logLine (notFound "Spreadsheet")])
  /\ doGet unconfigured (query "action" "images") []
     = doGet folderless (query "action" "images") [].
Proof.
  destruct (service_errors_surface sheetless None [] (notFound "Spreadsheet")) as (Hsheet & _).
  destruct (service_errors_surface unconfigured (query "action" "images") []
              (notFound "Folder")) as (_ & _ & Hunset).
  split.
  - apply Hsheet; [discriminate|reflexivity].
  - apply (Hunset folderless); [reflexivity|left; reflexivity|reflexivity].
Defined.

End MoreEvaluation.
